(** * toKenz: the token list component (filter, sort, cap, expansion, sizes)

    A shallow embedding of the [TokenEventsList] component.  The repository
    holds three revisions of that component; they share most of their text
    and differ in the filter (thresholds), in the age comparator and in the
    presence of the expansion store, the size estimator and the persisted
    filters.  The shared parts are embedded once, the differing parts once
    per revision, in the modules [Part000], [Part001] and [Part002], named
    after the source files [src/unnamed/part_000] .. [part_002].

    Conventions of the embedding:
    - a JavaScript [number] that holds a measurement (age in hours, holder
      count, liquidity, thresholds) is a rational [Q]; for finite doubles the
      sign of [a - b] is the sign of the exact difference, and that sign is
      all that [sort] and [<] look at.  NaN and infinities are outside the
      model;
    - the result cap and the pixel heights are integers [Z];
    - a JavaScript string is a [string] of bytes; [toLowerCase] lowers the
      ASCII letters;
    - a [Set<string>] is a [gset string]: only membership is observed. *)

From Stdlib Require Import ZArith QArith Lia Lqa List String Ascii Bool.
From Stdlib Require Import Sorting.Permutation Sorting.Sorted.
From stdpp Require Import base gmap sets strings.
Import ListNotations.

Local Open Scope string_scope.
Local Open Scope Z_scope.

#[local] Arguments String.append !_ _ / : simpl nomatch.
#[local] Set Warnings "-clear-no-such-hyp".

(** ** The JavaScript built-ins used by the component *)

Module JS.

(** [String.prototype.toLowerCase], on ASCII. *)
Definition lowerChar (c : ascii) : ascii :=
  let n := nat_of_ascii c in
  if (Nat.leb 65 n && Nat.leb n 90)%bool then ascii_of_nat (n + 32) else c.

Fixpoint toLowerCase (s : string) : string :=
  match s with
  | EmptyString => EmptyString
  | String c s' => String (lowerChar c) (toLowerCase s')
  end.

(** [String.prototype.startsWith(p)] with the argument first. *)
Fixpoint startsWith (p s : string) : bool :=
  match p, s with
  | EmptyString, _ => true
  | String _ _, EmptyString => false
  | String a p', String b s' => (Ascii.eqb a b && startsWith p' s')%bool
  end.

(** [s.includes(q)]: [q] occurs in [s] at some position. *)
Fixpoint includes (s q : string) : bool :=
  (startsWith q s ||
   match s with
   | EmptyString => false
   | String _ s' => includes s' q
   end)%bool.

(** [s.endsWith(suf)]: some suffix of [s] is [suf]. *)
Fixpoint endsWith (s suf : string) : bool :=
  (String.eqb s suf ||
   match s with
   | EmptyString => false
   | String _ s' => endsWith s' suf
   end)%bool.

Fixpoint dropChars (n : nat) (s : string) : string :=
  match n, s with
  | O, _ => s
  | S _, EmptyString => EmptyString
  | S n', String _ s' => dropChars n' s'
  end.

(** [s.replace(pat, rep)] with a string pattern: the first occurrence of
    [pat] only. *)
Fixpoint replace (pat rep s : string) : string :=
  if startsWith pat s then rep ++ dropChars (String.length pat) s
  else match s with
       | EmptyString => EmptyString
       | String c s' => String c (replace pat rep s')
       end.

(** Truthiness of a string value: the empty string is falsy. *)
Definition truthy (s : string) : bool :=
  match s with EmptyString => false | String _ _ => true end.

(** Truthiness of a field that may be absent ([undefined] or [null]). *)
Definition truthyOpt (o : option string) : bool :=
  match o with None => false | Some s => truthy s end.

(** [arr.slice(0, e)]: a negative [e] counts from the end of the array. *)
Definition slice0 {A : Type} (l : list A) (e : Z) : list A :=
  let len := Z.of_nat (List.length l) in
  let final := if e <? 0 then Z.max (len + e) 0 else Z.min e len in
  firstn (Z.to_nat final) l.

(** [arr.sort(cmp)].  The sort is stable, and [cmp a b > 0] asks for [b]
    before [a]; with a comparator that is a consistent ordering the result
    is the one a stable insertion sort gives. *)
Section Sort.
Context {A : Type} (cmp : A -> A -> Q).

Fixpoint insert (x : A) (l : list A) : list A :=
  match l with
  | [] => [x]
  | y :: l' => if Qle_bool (cmp x y) 0 then x :: y :: l' else y :: insert x l'
  end.

Fixpoint sort (l : list A) : list A :=
  match l with
  | [] => []
  | x :: l' => insert x (sort l')
  end.
End Sort.

Definition Qltb (x y : Q) : bool := negb (Qle_bool y x).

End JS.

(** ** Data model *)

(** The fields of [Token] that the list component reads. *)
Record Token := mkToken {
  tokenName : string;
  tokenSymbol : string;
  tokenAddress : string;
  tokenAgeHours : Q;
  gpHolderCount : Q;
  hpLiquidityAmount : Q;
  riskLevel : string;
  hpIsHoneypot : bool;
  gpIsProxy : bool;
  gpIsMintable : bool;
  gpHasProxyCalls : bool;
  gpCannotBuy : bool;
  gpCannotSellAll : bool;
  gpTradingCooldown : bool;
  gpTransferPausable : bool;
  gpSlippageModifiable : bool;
  gpHiddenOwner : bool;
  gpTrustList : option string;
  gpOtherPotentialRisks : option string;
  gpHolders : option string;
  gpLpHolders : option string;
  gpDexInfo : option string
}.

Record FilterState := mkFilterState {
  minHolders : Q;
  minLiquidity : Q;
  hideHoneypots : bool;
  showOnlyHoneypots : bool;
  hideDanger : bool;
  hideWarning : bool;
  showOnlySafe : bool;
  searchQuery : string;
  sortBy : string;
  sortDirection : string;
  maxRecords : Z;
  hideStagnantHolders : bool;
  hideStagnantLiquidity : bool;
  stagnantRecordCount : Z
}.

(** The object literal of [getSavedFilters] (and the initial signal value of
    the two revisions without persistence). *)
Definition defaultFilters : FilterState :=
  {| minHolders := 0; minLiquidity := 0;
     hideHoneypots := false; showOnlyHoneypots := false;
     hideDanger := false; hideWarning := false; showOnlySafe := false;
     searchQuery := ""; sortBy := "age"; sortDirection := "desc";
     maxRecords := 50;
     hideStagnantHolders := false; hideStagnantLiquidity := false;
     stagnantRecordCount := 10 |}.

(** [getRiskScore]: the same [switch] in the three revisions. *)
Definition getRiskScore (token : Token) : Q :=
  if String.eqb (riskLevel token) "safe" then 2
  else if String.eqb (riskLevel token) "warning" then 1
  else if String.eqb (riskLevel token) "danger" then 0
  else 0.

(** The text match at the end of the filter callback ([searchToken] in
    [part_002] is the same expression). *)
Definition searchToken (token : Token) (q : string) : bool :=
  let query := JS.toLowerCase q in
  (JS.includes (JS.toLowerCase (tokenName token)) query ||
   JS.includes (JS.toLowerCase (tokenSymbol token)) query ||
   JS.includes (JS.toLowerCase (tokenAddress token)) query)%bool.

(** Direction and field of a sort key: [-1] unless the key ends in [_asc],
    in which case the first [_asc] is removed from it. *)
Definition sortDirectionOf (key : string) : Q :=
  if JS.endsWith key "_asc" then 1 else -1.

Definition sortFieldOf (key : string) : string :=
  if JS.endsWith key "_asc" then JS.replace "_asc" "" key else key.

(** ** The expansion store (identical text in [part_001] and [part_002]) *)

(** [toggleTokenExpansion]: copy the set, then delete the address when it is
    there and add it otherwise. *)
Definition toggleTokenExpansion (address : string) (prev : gset string) : gset string :=
  let newSet := prev in
  if decide (address ∈ newSet) then newSet ∖ {[address]} else newSet ∪ {[address]}.

(** The updater of the expand-all / collapse-all button: [currentTokens] is
    the value of [filteredTokens()] read by the click handler. *)
Definition expandAllOnClick (currentTokens : list Token) (prev : gset string) : gset string :=
  let hasExpanded :=
    existsb (fun token => bool_decide (tokenAddress token ∈ prev)) currentTokens in
  if hasExpanded then ∅ else list_to_set (map tokenAddress currentTokens).

(** ** Persisted values *)

(** What [JSON.parse] can return. *)
#[local] Set Warnings "-register-all".
Inductive JSValue :=
| JNull
| JBool (b : bool)
| JNum (n : Z)
| JStr (s : string)
| JArr (items : list JSValue)
| JObj (fields : list (string * JSValue)).

(** What [getSavedFilters] hands to [createSignal]: the parsed payload as it
    is (the cast to [FilterState] checks nothing at run time), or the object
    literal of the fallback. *)
Inductive SavedFilters :=
| FromStorage (payload : JSValue)
| Fallback (filters : FilterState).

(** ** Revision [part_001]: thresholds, persisted filters, size estimator *)

Module Part001.

(** The callback of [result.filter]. *)
Definition tokenFilter (currentFilters : FilterState) (token : Token) : bool :=
  if (hideHoneypots currentFilters && hpIsHoneypot token)%bool then false
  else if (showOnlyHoneypots currentFilters && negb (hpIsHoneypot token))%bool then false
  else if (hideDanger currentFilters && String.eqb (riskLevel token) "danger")%bool then false
  else if (hideWarning currentFilters && String.eqb (riskLevel token) "warning")%bool then false
  else if (showOnlySafe currentFilters && negb (String.eqb (riskLevel token) "safe"))%bool then false
  else if (JS.Qltb 0 (minHolders currentFilters) &&
           JS.Qltb (gpHolderCount token) (minHolders currentFilters))%bool then false
  else if (JS.Qltb 0 (minLiquidity currentFilters) &&
           JS.Qltb (hpLiquidityAmount token) (minLiquidity currentFilters))%bool then false
  else if JS.truthy (searchQuery currentFilters)
       then searchToken token (searchQuery currentFilters)
  else true.

(** The callback of [result.sort]. *)
Definition compareTokens (currentFilters : FilterState) (a b : Token) : Q :=
  let direction := sortDirectionOf (sortBy currentFilters) in
  let field := sortFieldOf (sortBy currentFilters) in
  if String.eqb field "age" then (tokenAgeHours b - tokenAgeHours a) * direction
  else if String.eqb field "holders" then (gpHolderCount a - gpHolderCount b) * direction
  else if String.eqb field "liquidity" then (hpLiquidityAmount a - hpLiquidityAmount b) * direction
  else if String.eqb field "safetyScore" then
    let scoreA := getRiskScore a in
    let scoreB := getRiskScore b in
    (scoreA - scoreB) * direction
  else 0.

(** The memo [filteredTokens]: filter, sort, then slice. *)
Definition filteredTokens (tokens : list Token) (currentFilters : FilterState) : list Token :=
  let result := List.filter (tokenFilter currentFilters) tokens in
  let result := JS.sort (compareTokens currentFilters) result in
  JS.slice0 result (maxRecords currentFilters).

Definition flag (b : bool) : Z := if b then 1 else 0.

(** [estimateSize]: [filtered] and [expanded] are the values of the
    signals [filteredTokens()] and [expandedTokens()]. *)
Definition estimateSize (filtered : list Token) (expanded : gset string) (index : nat) : Z :=
  match nth_error filtered index with
  | None => 60
  | Some token =>
    if negb (bool_decide (tokenAddress token ∈ expanded)) then 84
    else
      let height := 0 in
      let height := height + 40 in
      let height := height + 60 in
      let height := height + 60 in
      let warningCount :=
        flag (gpIsProxy token) + flag (gpIsMintable token) +
        flag (gpHasProxyCalls token) + flag (gpCannotBuy token) +
        flag (gpCannotSellAll token) + flag (gpTradingCooldown token) +
        flag (gpTransferPausable token) + flag (gpSlippageModifiable token) +
        flag (gpHiddenOwner token) in
      let height := if 0 <? warningCount then height + (80 + warningCount * 24) else height in
      let height := height + 300 in
      let height := height + 400 in
      let height := height + 200 in
      let height := height + 300 in
      let height := height + 200 in
      let height := if JS.truthyOpt (gpTrustList token) then height + 40 else height in
      let height := if JS.truthyOpt (gpOtherPotentialRisks token) then height + 40 else height in
      let height := if JS.truthyOpt (gpHolders token) then height + 40 else height in
      let height := if JS.truthyOpt (gpLpHolders token) then height + 40 else height in
      let height := if JS.truthyOpt (gpDexInfo token) then height + 40 else height in
      let height := height + 40 in
      let height := height + 40 in
      let height := height + 200 in
      let height := height + 40 in
      let height := height + 200 in
      let height := height + 40 in
      let height := height + 40 in
      let height := height + 200 in
      let height := height + 40 in
      let height := height + 60 in
      let height := height + 40 in
      height
  end.

(** [getSavedFilters]: [saved] is what [localStorage.getItem] returned
    ([None] for [null]); [parse] is [JSON.parse], with [None] for a thrown
    [SyntaxError]. *)
Definition getSavedFilters (parse : string -> option JSValue) (saved : option string)
  : SavedFilters :=
  match saved with
  | Some text =>
    if JS.truthy text then
      match parse text with
      | Some payload => FromStorage payload
      | None => Fallback defaultFilters
      end
    else Fallback defaultFilters
  | None => Fallback defaultFilters
  end.

End Part001.

(** ** Revision [part_000]: no thresholds, age compared as [a - b] *)

Module Part000.

Definition tokenFilter (currentFilters : FilterState) (token : Token) : bool :=
  if (hideHoneypots currentFilters && hpIsHoneypot token)%bool then false
  else if (showOnlyHoneypots currentFilters && negb (hpIsHoneypot token))%bool then false
  else if (hideDanger currentFilters && String.eqb (riskLevel token) "danger")%bool then false
  else if (hideWarning currentFilters && String.eqb (riskLevel token) "warning")%bool then false
  else if (showOnlySafe currentFilters && negb (String.eqb (riskLevel token) "safe"))%bool then false
  else if JS.truthy (searchQuery currentFilters)
       then searchToken token (searchQuery currentFilters)
  else true.

Definition compareTokens (currentFilters : FilterState) (a b : Token) : Q :=
  let direction := sortDirectionOf (sortBy currentFilters) in
  let field := sortFieldOf (sortBy currentFilters) in
  if String.eqb field "age" then (tokenAgeHours a - tokenAgeHours b) * direction
  else if String.eqb field "holders" then (gpHolderCount a - gpHolderCount b) * direction
  else if String.eqb field "liquidity" then (hpLiquidityAmount a - hpLiquidityAmount b) * direction
  else if String.eqb field "safetyScore" then
    let scoreA := getRiskScore a in
    let scoreB := getRiskScore b in
    (scoreA - scoreB) * direction
  else 0.

Definition filteredTokens (tokens : list Token) (currentFilters : FilterState) : list Token :=
  let result := List.filter (tokenFilter currentFilters) tokens in
  let result := JS.sort (compareTokens currentFilters) result in
  JS.slice0 result (maxRecords currentFilters).

End Part000.

(** ** Revision [part_002]: the filter of [part_000], the comparator of
    [part_001] *)

Module Part002.

Definition tokenFilter := Part000.tokenFilter.

Definition compareTokens := Part001.compareTokens.

Definition filteredTokens (tokens : list Token) (currentFilters : FilterState) : list Token :=
  let result := List.filter (tokenFilter currentFilters) tokens in
  let result := JS.sort (compareTokens currentFilters) result in
  JS.slice0 result (maxRecords currentFilters).

End Part002.

(** ** Sample records *)

Definition sampleToken (name address : string) (age : Q) : Token :=
  {| tokenName := name; tokenSymbol := "TKN"; tokenAddress := address;
     tokenAgeHours := age; gpHolderCount := 10; hpLiquidityAmount := 1000;
     riskLevel := "safe"; hpIsHoneypot := false;
     gpIsProxy := false; gpIsMintable := false; gpHasProxyCalls := false;
     gpCannotBuy := false; gpCannotSellAll := false; gpTradingCooldown := false;
     gpTransferPausable := false; gpSlippageModifiable := false;
     gpHiddenOwner := false;
     gpTrustList := None; gpOtherPotentialRisks := None; gpHolders := None;
     gpLpHolders := None; gpDexInfo := None |}.

Definition withSort (key : string) (f : FilterState) : FilterState :=
  {| minHolders := minHolders f; minLiquidity := minLiquidity f;
     hideHoneypots := hideHoneypots f; showOnlyHoneypots := showOnlyHoneypots f;
     hideDanger := hideDanger f; hideWarning := hideWarning f;
     showOnlySafe := showOnlySafe f; searchQuery := searchQuery f;
     sortBy := key; sortDirection := sortDirection f;
     maxRecords := maxRecords f;
     hideStagnantHolders := hideStagnantHolders f;
     hideStagnantLiquidity := hideStagnantLiquidity f;
     stagnantRecordCount := stagnantRecordCount f |}.

Definition ages3 : list Token :=
  [sampleToken "A" "0xa" 1; sampleToken "B" "0xb" 5; sampleToken "C" "0xc" 2].

(** ** Predicates used in the statements *)

(** No underscore anywhere in the string. *)
Fixpoint noUnderscore (s : string) : bool :=
  match s with
  | EmptyString => true
  | String c s' => (negb (Ascii.eqb c "_") && noUnderscore s')%bool
  end.

(** [b] may follow [a] in an array sorted by [cmp]. *)
Definition inOrder {A : Type} (cmp : A -> A -> Q) (a b : A) : Prop := (cmp a b <= 0)%Q.

(** [hay] contains [needle], letter case aside. *)
Definition containsCI (hay needle : string) : Prop :=
  exists pre post, JS.toLowerCase hay = pre ++ JS.toLowerCase needle ++ post.

(** The name, the symbol or the identifier contains the query. *)
Definition matchesQuery (t : Token) (q : string) : Prop :=
  containsCI (tokenName t) q \/ containsCI (tokenSymbol t) q \/
  containsCI (tokenAddress t) q.

(** The record passes every enabled toggle. *)
Definition passesToggles (f : FilterState) (t : Token) : Prop :=
  (hideHoneypots f = true -> hpIsHoneypot t = false) /\
  (showOnlyHoneypots f = true -> hpIsHoneypot t = true) /\
  (hideDanger f = true -> riskLevel t <> "danger") /\
  (hideWarning f = true -> riskLevel t <> "warning") /\
  (showOnlySafe f = true -> riskLevel t = "safe").

(** The record passes every threshold above zero. *)
Definition passesThresholds (f : FilterState) (t : Token) : Prop :=
  ((0 < minHolders f)%Q -> (minHolders f <= gpHolderCount t)%Q) /\
  ((0 < minLiquidity f)%Q -> (minLiquidity f <= hpLiquidityAmount t)%Q).

(** A honeypot whose name matches the query "alp". *)
Definition honeypotAlpha : Token :=
  {| tokenName := "Alpha"; tokenSymbol := "ALP"; tokenAddress := "0xa1";
     tokenAgeHours := 3; gpHolderCount := 120; hpLiquidityAmount := 5000;
     riskLevel := "danger"; hpIsHoneypot := true;
     gpIsProxy := true; gpIsMintable := false; gpHasProxyCalls := false;
     gpCannotBuy := false; gpCannotSellAll := true; gpTradingCooldown := false;
     gpTransferPausable := false; gpSlippageModifiable := false;
     gpHiddenOwner := true;
     gpTrustList := None; gpOtherPotentialRisks := Some "fake token";
     gpHolders := Some "[]"; gpLpHolders := Some ""; gpDexInfo := None |}.

Definition hideHoneypotsSearchAlp : FilterState :=
  {| minHolders := 0; minLiquidity := 0;
     hideHoneypots := true; showOnlyHoneypots := false;
     hideDanger := false; hideWarning := false; showOnlySafe := false;
     searchQuery := "alp"; sortBy := "age"; sortDirection := "desc";
     maxRecords := 50;
     hideStagnantHolders := false; hideStagnantLiquidity := false;
     stagnantRecordCount := 10 |}.

Definition withCap (cap : Z) (f : FilterState) : FilterState :=
  {| minHolders := minHolders f; minLiquidity := minLiquidity f;
     hideHoneypots := hideHoneypots f; showOnlyHoneypots := showOnlyHoneypots f;
     hideDanger := hideDanger f; hideWarning := hideWarning f;
     showOnlySafe := showOnlySafe f; searchQuery := searchQuery f;
     sortBy := sortBy f; sortDirection := sortDirection f;
     maxRecords := cap;
     hideStagnantHolders := hideStagnantHolders f;
     hideStagnantLiquidity := hideStagnantLiquidity f;
     stagnantRecordCount := stagnantRecordCount f |}.

Definition withAge (age : Q) (t : Token) : Token :=
  {| tokenName := tokenName t; tokenSymbol := tokenSymbol t;
     tokenAddress := tokenAddress t;
     tokenAgeHours := age; gpHolderCount := gpHolderCount t;
     hpLiquidityAmount := hpLiquidityAmount t;
     riskLevel := riskLevel t; hpIsHoneypot := hpIsHoneypot t;
     gpIsProxy := gpIsProxy t; gpIsMintable := gpIsMintable t;
     gpHasProxyCalls := gpHasProxyCalls t; gpCannotBuy := gpCannotBuy t;
     gpCannotSellAll := gpCannotSellAll t;
     gpTradingCooldown := gpTradingCooldown t;
     gpTransferPausable := gpTransferPausable t;
     gpSlippageModifiable := gpSlippageModifiable t;
     gpHiddenOwner := gpHiddenOwner t;
     gpTrustList := gpTrustList t;
     gpOtherPotentialRisks := gpOtherPotentialRisks t;
     gpHolders := gpHolders t; gpLpHolders := gpLpHolders t;
     gpDexInfo := gpDexInfo t |}.

(** Three records whose ages are 1, 5 and 2, in that order. *)
Definition agedOneFiveTwo (t1 t2 t3 : Token) : list Token :=
  [withAge 1 t1; withAge 5 t2; withAge 2 t3].

(** The sort keys whose field a comparator knows: the four fields, each
    with and without the suffix. *)
Definition recognizedSortKeys : list string :=
  ["age"; "holders"; "liquidity"; "safetyScore";
   "age_asc"; "holders_asc"; "liquidity_asc"; "safetyScore_asc"].

(** The fixed section heights that [estimateSize] adds for an expanded
    record, in the order of the source. *)
Definition fixedSectionHeights : list Z :=
  [40; 60; 60; 300; 400; 200; 300; 200; 40; 40; 200; 40; 200; 40; 40; 200; 40; 60; 40].

(** The nine risk flags of a record. *)
Definition riskFlags (t : Token) : list bool :=
  [gpIsProxy t; gpIsMintable t; gpHasProxyCalls t; gpCannotBuy t;
   gpCannotSellAll t; gpTradingCooldown t; gpTransferPausable t;
   gpSlippageModifiable t; gpHiddenOwner t].

(** The five optional fields of a record, each as "present or not". *)
Definition optionalFieldsPresent (t : Token) : list bool :=
  [JS.truthyOpt (gpTrustList t); JS.truthyOpt (gpOtherPotentialRisks t);
   JS.truthyOpt (gpHolders t); JS.truthyOpt (gpLpHolders t);
   JS.truthyOpt (gpDexInfo t)].

Definition countTrue (l : list bool) : Z :=
  Z.of_nat (List.length (List.filter (fun b : bool => b) l)).

(** ** [JSON.parse] on a subset of JSON

    The subset has [null], [true], [false], integers without fraction or
    exponent, strings without escapes, arrays and objects, with white space
    between tokens.  [None] stands for a thrown [SyntaxError]; the texts used
    below are inside the subset. *)

Module JSON.

(** The double quote character. *)
Definition dquote : ascii := "034"%char.

(** [s] between double quotes. *)
Definition quoted (s : string) : string := String dquote (s ++ String dquote "").

Definition isWs (c : ascii) : bool :=
  (Ascii.eqb c " " || Ascii.eqb c "009" || Ascii.eqb c "010" || Ascii.eqb c "013")%bool.

Fixpoint skipWs (s : string) : string :=
  match s with
  | String c s' => if isWs c then skipWs s' else s
  | EmptyString => s
  end.

Definition digitOf (c : ascii) : option Z :=
  let n := nat_of_ascii c in
  if (Nat.leb 48 n && Nat.leb n 57)%bool then Some (Z.of_nat (n - 48)) else None.

Fixpoint digits (acc : Z) (s : string) : Z * string :=
  match s with
  | String c s' =>
    match digitOf c with
    | Some d => digits (10 * acc + d) s'
    | None => (acc, s)
    end
  | EmptyString => (acc, s)
  end.

(** [0] or a digit from 1 to 9 followed by digits. *)
Definition natural (s : string) : option (Z * string) :=
  match s with
  | String c s' =>
    match digitOf c with
    | Some 0 => Some (0, s')
    | Some d => Some (digits d s')
    | None => None
    end
  | EmptyString => None
  end.

Definition number (s : string) : option (JSValue * string) :=
  match s with
  | String "-" s' =>
    match natural s' with
    | Some (n, r) => Some (JNum (- n), r)
    | None => None
    end
  | _ =>
    match natural s with
    | Some (n, r) => Some (JNum n, r)
    | None => None
    end
  end.

(** The characters of a string up to the closing quote; a backslash or
    a control character is outside the subset. *)
Fixpoint chars (s : string) : option (string * string) :=
  match s with
  | EmptyString => None
  | String c s' =>
    if Ascii.eqb c dquote then Some (EmptyString, s')
    else if (Ascii.eqb c "092" || Nat.ltb (nat_of_ascii c) 32)%bool then None
    else match chars s' with
         | Some (str, r) => Some (String c str, r)
         | None => None
         end
  end.

Definition literal (word : string) (v : JSValue) (s : string) : option (JSValue * string) :=
  if JS.startsWith word s then Some (v, JS.dropChars (String.length word) s) else None.

Fixpoint value (fuel : nat) (s : string) : option (JSValue * string) :=
  match fuel with
  | O => None
  | S fuel' =>
    match skipWs s with
    | EmptyString => None
    | String c rest as s' =>
      if Ascii.eqb c "n" then literal "null" JNull s'
      else if Ascii.eqb c "t" then literal "true" (JBool true) s'
      else if Ascii.eqb c "f" then literal "false" (JBool false) s'
      else if Ascii.eqb c dquote then
        match chars rest with
        | Some (str, r) => Some (JStr str, r)
        | None => None
        end
      else if Ascii.eqb c "[" then
        match skipWs rest with
        | String "]" r => Some (JArr [], r)
        | _ =>
          match elements fuel' rest with
          | Some (items, r) => Some (JArr items, r)
          | None => None
          end
        end
      else if Ascii.eqb c "{" then
        match skipWs rest with
        | String "}" r => Some (JObj [], r)
        | _ =>
          match members fuel' rest with
          | Some (fields, r) => Some (JObj fields, r)
          | None => None
          end
        end
      else number s'
    end
  end
with elements (fuel : nat) (s : string) : option (list JSValue * string) :=
  match fuel with
  | O => None
  | S fuel' =>
    match value fuel' s with
    | None => None
    | Some (v, r) =>
      match skipWs r with
      | String "," r' =>
        match elements fuel' r' with
        | Some (vs, r'') => Some (v :: vs, r'')
        | None => None
        end
      | String "]" r' => Some ([v], r')
      | _ => None
      end
    end
  end
with members (fuel : nat) (s : string) : option (list (string * JSValue) * string) :=
  match fuel with
  | O => None
  | S fuel' =>
    match skipWs s with
    | String c rest =>
      if negb (Ascii.eqb c dquote) then None else
      match chars rest with
      | None => None
      | Some (key, r) =>
        match skipWs r with
        | String ":" r1 =>
          match value fuel' r1 with
          | None => None
          | Some (v, r2) =>
            match skipWs r2 with
            | String "," r3 =>
              match members fuel' r3 with
              | Some (ms, r4) => Some ((key, v) :: ms, r4)
              | None => None
              end
            | String "}" r3 => Some ([(key, v)], r3)
            | _ => None
            end
          end
        | _ => None
        end
      end
    | EmptyString => None
    end
  end.

(** One value, then nothing but white space.  Every call consumes a
    character, so twice the length of the text is enough fuel. *)
Definition parse (text : string) : option JSValue :=
  match value (2 * String.length text + 2) text with
  | Some (v, r) =>
    match skipWs r with
    | EmptyString => Some v
    | String _ _ => None
    end
  | None => None
  end.

End JSON.

(** ** Further parts of the components *)


(** The updaters of the "Hide Danger" and "Hide Warning" check boxes, in
    one: [{...f, hideDanger: d, hideWarning: w}]. *)
Definition withRiskHiding (d w : bool) (f : FilterState) : FilterState :=
  {| minHolders := minHolders f; minLiquidity := minLiquidity f;
     hideHoneypots := hideHoneypots f; showOnlyHoneypots := showOnlyHoneypots f;
     hideDanger := d; hideWarning := w;
     showOnlySafe := showOnlySafe f; searchQuery := searchQuery f;
     sortBy := sortBy f; sortDirection := sortDirection f;
     maxRecords := maxRecords f;
     hideStagnantHolders := hideStagnantHolders f;
     hideStagnantLiquidity := hideStagnantLiquidity f;
     stagnantRecordCount := stagnantRecordCount f |}.

(** No toggle is on, no threshold is above zero and the search is empty. *)
Definition noFilterActive (f : FilterState) : Prop :=
  hideHoneypots f = false /\ showOnlyHoneypots f = false /\
  hideDanger f = false /\ hideWarning f = false /\ showOnlySafe f = false /\
  (minHolders f <= 0)%Q /\ (minLiquidity f <= 0)%Q /\ searchQuery f = "".

(** String built-ins of the row and the badge. *)
Module JSText.



(** A relative index of [slice]: negative counts from the end, and the
    result is clamped to the string. *)
Definition relativeIndex (len : nat) (i : Z) : nat :=
  if i <? 0 then Z.to_nat (Z.max (Z.of_nat len + i) 0)
  else Z.to_nat (Z.min i (Z.of_nat len)).

(** [s.slice(start, end)]; [None] is an omitted [end]. *)
Definition slice (s : string) (start : Z) (stop : option Z) : string :=
  let len := String.length s in
  let from := relativeIndex len start in
  let to := match stop with
            | Some e => relativeIndex len e
            | None => len
            end in
  String.substring from (to - from) s.

End JSText.

(** The address cell of [CompactRow]:
    [tokenAddress.slice(0, 8)]...[tokenAddress.slice(-6)]. *)
Definition abbreviatedAddress (token : Token) : string :=
  JSText.slice (tokenAddress token) 0 (Some 8) ++ "..." ++
  JSText.slice (tokenAddress token) (-6) None.

(** The colour classes of the risk badge. *)
Definition riskBadgeClass (token : Token) : string :=
  if String.eqb (riskLevel token) "safe"
  then "bg-green-100 text-green-800 border border-green-200"
  else if String.eqb (riskLevel token) "warning"
  then "bg-yellow-100 text-yellow-800 border border-yellow-200"
  else "bg-red-100 text-red-800 border border-red-200".

(** The caption of the expand-all / collapse-all button: [virtualItems] are
    the row indices that [virtualizer.getVirtualItems()] returned. *)
Definition viewToggleLabel
    (filtered : list Token) (expanded : gset string) (virtualItems : list nat) : string :=
  if existsb
       (fun index =>
          match nth_error filtered index with
          | Some token => bool_decide (tokenAddress token ∈ expanded)
          | None => false
          end) virtualItems
  then "Compact View" else "Detailed View".

(** ** The chart axis of [part_002] *)

Inductive ChartType := liquidity | holders.

(** The fields of a history record that the chart reads. *)
Record HistoryRecord := mkHistoryRecord {
  timestamp : Z;
  totalLiquidity : Q;
  holderCount : Q
}.

Record YAxis := mkYAxis { axisMin : Q; axisMax : Q }.

(** [Math.min] and [Math.max] of two numbers. *)
Definition min2 (a b : Q) : Q := if Qle_bool a b then a else b.
Definition max2 (a b : Q) : Q := if Qle_bool a b then b else a.

(** [Math.min(...values)] and [Math.max(...values)] on a non-empty array,
    given as its head and tail. *)
Definition minOf (v : Q) (values : list Q) : Q := fold_left min2 values v.
Definition maxOf (v : Q) (values : list Q) : Q := fold_left max2 values v.

Definition chartValue (type : ChartType) (record : HistoryRecord) : Q :=
  match type with
  | liquidity => totalLiquidity record
  | holders => holderCount record
  end.

(** [getYAxisConfig]: [None] is the empty object returned for an empty
    history; the [ticks] entry of the result, a constant, is left out.  The
    padding factor 0.1 is the rational 1/10: the bounds proved below are
    inequalities that rounding to a double keeps. *)
Definition getYAxisConfig (type : ChartType) (history : list HistoryRecord) : option YAxis :=
  match map (chartValue type) history with
  | [] => None
  | v :: values =>
    let min := minOf v values in
    let max := maxOf v values in
    let range := (max - min)%Q in
    let paddingFactor := (1 # 10)%Q in
    let paddedMin := max2 0 (min - range * paddingFactor) in
    let paddedMax := (max + range * paddingFactor)%Q in
    Some {| axisMin := paddedMin; axisMax := paddedMax |}
  end.

(** ** The warnings of the detail card ([part_004]) *)

(** The further fields of [Token] that [getWarningReasons] reads. *)
Record CardToken := mkCardToken {
  cardToken : Token;
  gpIsOpenSource : bool;
  gpPersonalSlippageModifiable : bool;
  gpCanTakeBackOwnership : bool;
  gpOwnerChangeBalance : bool;
  gpBuyTax : Q;
  gpSellTax : Q;
  gpIsAirdropScam : bool;
  gpHoneypotWithSameCreator : bool;
  gpFakeToken : bool;
  gpIsBlacklisted : bool
}.

(** [reasons.push(text)] under a condition. *)
Definition pushIf (c : bool) (text : string) (reasons : list string) : list string :=
  if c then reasons ++ [text] else reasons.

(** [getWarningReasons]; [show] renders a number inside the two template
    strings. *)
Definition getWarningReasons (show : Q -> string) (t : CardToken) : list string :=
  let token := cardToken t in
  let reasons := [] in
  let reasons := pushIf (negb (gpIsOpenSource t)) "Contract is not open source" reasons in
  let reasons := pushIf (gpIsProxy token) "Contract uses proxy pattern" reasons in
  let reasons := pushIf (gpIsMintable token) "Token is mintable" reasons in
  let reasons := pushIf (gpHasProxyCalls token) "Contract has proxy calls" reasons in
  let reasons := pushIf (gpCannotBuy token) "Buying is restricted" reasons in
  let reasons := pushIf (gpCannotSellAll token) "Cannot sell all tokens" reasons in
  let reasons := pushIf (gpTradingCooldown token) "Trading cooldown enabled" reasons in
  let reasons := pushIf (gpTransferPausable token) "Transfers can be paused" reasons in
  let reasons := pushIf (gpSlippageModifiable token) "Slippage can be modified" reasons in
  let reasons := pushIf (gpPersonalSlippageModifiable t)
                   "Personal slippage can be modified" reasons in
  let reasons := pushIf (gpHiddenOwner token) "Hidden owner detected" reasons in
  let reasons := pushIf (gpCanTakeBackOwnership t) "Ownership can be taken back" reasons in
  let reasons := pushIf (gpOwnerChangeBalance t) "Owner can change balances" reasons in
  let reasons := pushIf (JS.Qltb 10 (gpBuyTax t))
                   ("High buy tax: " ++ show (gpBuyTax t) ++ "%") reasons in
  let reasons := pushIf (JS.Qltb 10 (gpSellTax t))
                   ("High sell tax: " ++ show (gpSellTax t) ++ "%") reasons in
  let reasons := pushIf (gpIsAirdropScam t) "Potential airdrop scam" reasons in
  let reasons := pushIf (gpHoneypotWithSameCreator t)
                   "Creator has deployed honeypots" reasons in
  let reasons := pushIf (gpFakeToken t) "Potential fake token" reasons in
  let reasons := pushIf (gpIsBlacklisted t) "Token is blacklisted" reasons in
  reasons.

(** * Properties *)

(** ** Strings *)

Section StringFacts.

Lemma startsWith_app (p r : string) : JS.startsWith p (p ++ r) = true.
Proof.
  induction p as [|c p IH]; simpl; [reflexivity|].
  rewrite Ascii.eqb_refl. exact IH.
Qed.

Lemma startsWith_inv (p s : string) :
  JS.startsWith p s = true -> exists r, s = p ++ r.
Proof.
  revert s. induction p as [|c p IH]; intros s H.
  - exists s. reflexivity.
  - destruct s as [|d s]; simpl in H; [discriminate|].
    apply andb_prop in H as [Hc Hp].
    apply Ascii.eqb_eq in Hc. subst d.
    destruct (IH _ Hp) as [r ->]. exists r. reflexivity.
Qed.

Lemma dropChars_app (p r : string) : JS.dropChars (String.length p) (p ++ r) = r.
Proof. induction p as [|c p IH]; simpl; [destruct r; reflexivity | exact IH]. Qed.


Lemma length_app (a b : string) :
  String.length (a ++ b) = (String.length a + String.length b)%nat.
Proof. induction a as [|x a IH]; simpl; [reflexivity | now rewrite IH]. Qed.

Lemma append_empty_r (a : string) : a ++ "" = a.
Proof. induction a as [|x a IH]; simpl; [reflexivity | now rewrite IH]. Qed.

Lemma includes_here (s q : string) :
  JS.startsWith q s = true -> JS.includes s q = true.
Proof. intros H. destruct s; simpl; rewrite H; reflexivity. Qed.

(** [includes] is the substring relation. *)
Lemma includes_spec (s q : string) :
  JS.includes s q = true <-> exists pre post, s = pre ++ q ++ post.
Proof.
  split.
  - induction s as [|c s IH]; simpl; intros H.
    + rewrite orb_false_r in H. apply startsWith_inv in H as [r ->].
      exists "", r. reflexivity.
    + apply orb_prop in H as [H|H].
      * apply startsWith_inv in H as [r ->]. exists "", r. reflexivity.
      * destruct (IH H) as (pre & post & ->).
        exists (String c pre), post. reflexivity.
  - intros (pre & post & ->).
    induction pre as [|c pre IH]; simpl.
    + apply includes_here, startsWith_app.
    + rewrite IH. apply orb_true_r.
Qed.

Lemma endsWith_inv (s suf : string) :
  JS.endsWith s suf = true -> exists pre, s = pre ++ suf.
Proof.
  induction s as [|c s IH]; cbn [JS.endsWith]; intros H.
  - rewrite orb_false_r in H. apply String.eqb_eq in H. subst suf.
    exists "". reflexivity.
  - apply orb_prop in H as [H|H].
    + apply String.eqb_eq in H. exists "". simpl. exact H.
    + destruct (IH H) as [pre ->]. exists (String c pre). reflexivity.
Qed.

Lemma endsWith_app (pre suf : string) : JS.endsWith (pre ++ suf) suf = true.
Proof.
  induction pre as [|c pre IH]; simpl String.append; cbn [JS.endsWith].
  - destruct suf; cbn [JS.endsWith]; rewrite String.eqb_refl; reflexivity.
  - rewrite IH. apply orb_true_r.
Qed.

(** Removing the first occurrence of a pattern: either there is none, or
    the string splits around it. *)
Lemma replace_empty_inv (pat s : string) :
  JS.replace pat "" s = s \/
  exists pre post, s = pre ++ pat ++ post /\ JS.replace pat "" s = pre ++ post.
Proof.
  induction s as [|c s IH].
  - simpl. destruct (JS.startsWith pat "") eqn:E.
    + right. apply startsWith_inv in E as [r E].
      exists "", r. simpl. split; [exact E|].
      rewrite E at 1. apply dropChars_app.
    + left. reflexivity.
  - cbn [JS.replace]. destruct (JS.startsWith pat (String c s)) eqn:E.
    + right. apply startsWith_inv in E as [r E].
      exists "", r. simpl. split; [exact E|].
      rewrite E. apply dropChars_app.
    + destruct IH as [IH | (pre & post & Hs & Hr)].
      * left. now rewrite IH.
      * right. exists (String c pre), post. simpl. now rewrite <- Hs, Hr.
Qed.

Lemma noUnderscore_app (a b : string) :
  noUnderscore (a ++ b) = (noUnderscore a && noUnderscore b)%bool.
Proof.
  induction a as [|c a IH]; simpl; [reflexivity|].
  rewrite IH. apply andb_assoc.
Qed.

Lemma asc_suffix_unique (pre post p : string) :
  pre ++ "_asc" ++ post = p ++ "_asc" ->
  noUnderscore post = true -> post = "".
Proof.
  revert p. induction pre as [|c pre IH]; intros p E Hpost.
  - simpl in E.
    destruct p as [|c1 p]; simpl in E; [congruence|].
    destruct p as [|c2 p]; simpl in E; [discriminate|].
    destruct p as [|c3 p]; simpl in E; [discriminate|].
    destruct p as [|c4 p]; simpl in E; [discriminate|].
    injection E as _ _ _ _ E. subst post.
    rewrite noUnderscore_app in Hpost. simpl in Hpost.
    rewrite andb_false_r in Hpost. discriminate.
  - destruct p as [|c1 p]; simpl in E.
    + exfalso. apply (f_equal String.length) in E.
      simpl in E. rewrite length_app in E. simpl in E. lia.
    + injection E as _ E. exact (IH _ E Hpost).
Qed.

(** A field without underscore comes from the key itself or from the key
    with the suffix. *)
Lemma sortFieldOf_inv (key field : string) :
  noUnderscore field = true ->
  sortFieldOf key = field -> key = field \/ key = field ++ "_asc".
Proof.
  intros Hf. unfold sortFieldOf.
  destruct (JS.endsWith key "_asc") eqn:E; [|now left].
  intros Hr. right.
  apply endsWith_inv in E as [p Hp].
  destruct (replace_empty_inv "_asc" key) as [Hsame | (pre & post & Hs & Hrep)].
  - exfalso. assert (Hfield : field = p ++ "_asc") by congruence.
    rewrite Hfield, noUnderscore_app in Hf. simpl in Hf.
    rewrite andb_false_r in Hf. discriminate.
  - assert (Hfield : field = pre ++ post) by congruence.
    rewrite Hfield, noUnderscore_app in Hf. apply andb_prop in Hf as [_ Hpost].
    assert (Hnil : post = "")
      by (apply (asc_suffix_unique pre post p); congruence).
    rewrite Hfield, Hs, Hnil, !append_empty_r. reflexivity.
Qed.

End StringFacts.

(** ** The sort and the slice *)

Section SortFacts.
Context {A : Type} (cmp : A -> A -> Q).

Lemma insert_perm (x : A) (l : list A) : Permutation (JS.insert cmp x l) (x :: l).
Proof.
  induction l as [|y l IH]; simpl; [apply Permutation_refl|].
  destruct (Qle_bool (cmp x y) 0); [apply Permutation_refl|].
  eapply perm_trans; [apply perm_skip, IH | apply perm_swap].
Qed.

Lemma sort_perm (l : list A) : Permutation (JS.sort cmp l) l.
Proof.
  induction l as [|x l IH]; simpl; [constructor|].
  eapply perm_trans; [apply insert_perm | now apply perm_skip].
Qed.

Lemma sort_length (l : list A) : List.length (JS.sort cmp l) = List.length l.
Proof. apply Permutation_length, sort_perm. Qed.

(** A comparator that never asks for a swap leaves the array as it is. *)
Lemma sort_passthrough (l : list A) :
  (forall a b, Qle_bool (cmp a b) 0 = true) -> JS.sort cmp l = l.
Proof.
  intros H. induction l as [|x l IH]; simpl; [reflexivity|].
  rewrite IH. destruct l as [|y l]; simpl; [reflexivity|].
  now rewrite H.
Qed.

(** For a comparator whose sign flips with its arguments the result is
    sorted. *)
Hypothesis cmp_flip : forall a b, ~ inOrder cmp a b -> inOrder cmp b a.

Lemma insert_sorted (x : A) (l : list A) :
  LocallySorted (inOrder cmp) l -> LocallySorted (inOrder cmp) (JS.insert cmp x l).
Proof.
  induction 1 as [|y|y z l Hl IH Hyz]; simpl.
  - constructor.
  - destruct (Qle_bool (cmp x y) 0) eqn:E.
    + constructor; [constructor|]. now apply Qle_bool_iff.
    + constructor; [constructor|]. apply cmp_flip.
      unfold inOrder. rewrite <- Qle_bool_iff, E. discriminate.
  - destruct (Qle_bool (cmp x y) 0) eqn:E.
    + constructor; [now constructor|]. now apply Qle_bool_iff.
    + simpl in IH. destruct (Qle_bool (cmp x z) 0) eqn:E'.
      * constructor; [exact IH|]. apply cmp_flip.
        unfold inOrder. rewrite <- Qle_bool_iff, E. discriminate.
      * constructor; [exact IH | exact Hyz].
Qed.

Lemma sort_sorted (l : list A) : LocallySorted (inOrder cmp) (JS.sort cmp l).
Proof.
  induction l as [|x l IH]; simpl; [constructor | now apply insert_sorted].
Qed.

End SortFacts.

Section SliceFacts.
Context {A : Type}.

Lemma slice0_nonneg (l : list A) (e : Z) :
  0 <= e -> JS.slice0 l e = firstn (Z.to_nat e) l.
Proof.
  intros He. unfold JS.slice0.
  destruct (Z.ltb_spec e 0) as [Hlt|_]; [lia|].
  destruct (Z.min_spec e (Z.of_nat (List.length l))) as [[Hle ->]|[Hle ->]];
    [reflexivity|].
  rewrite Nat2Z.id, firstn_all. symmetry. apply firstn_all2. lia.
Qed.

Lemma slice0_neg (l : list A) (e : Z) :
  e < 0 -> JS.slice0 l e = firstn (List.length l - Z.to_nat (- e)) l.
Proof.
  intros He. unfold JS.slice0.
  destruct (Z.ltb_spec e 0) as [Hlt|Hge]; [|lia].
  f_equal. lia.
Qed.

Lemma slice0_zero (l : list A) : JS.slice0 l 0 = [].
Proof.
  unfold JS.slice0. simpl.
  replace (Z.to_nat (Z.min 0 (Z.of_nat (List.length l)))) with 0%nat by lia.
  reflexivity.
Qed.

End SliceFacts.

(** The comparators of the three revisions flip their sign with their
    arguments. *)
Lemma compareTokens_flip_001 (f : FilterState) (a b : Token) :
  (Part001.compareTokens f b a == - Part001.compareTokens f a b)%Q.
Proof.
  unfold Part001.compareTokens.
  repeat match goal with |- context [if ?c then _ else _] => destruct c end;
    cbv zeta; ring.
Qed.

Lemma compareTokens_flip_000 (f : FilterState) (a b : Token) :
  (Part000.compareTokens f b a == - Part000.compareTokens f a b)%Q.
Proof.
  unfold Part000.compareTokens.
  repeat match goal with |- context [if ?c then _ else _] => destruct c end;
    cbv zeta; ring.
Qed.

Lemma flip_inOrder {A : Type} (cmp : A -> A -> Q) :
  (forall a b, cmp b a == - cmp a b)%Q ->
  forall a b, ~ inOrder cmp a b -> inOrder cmp b a.
Proof.
  intros H a b Hn. unfold inOrder in *. rewrite H. lra.
Qed.

(** ** The filter *)

Section FilterFacts.

Lemma searchToken_spec (t : Token) (q : string) :
  searchToken t q = true <-> matchesQuery t q.
Proof.
  unfold searchToken, matchesQuery, containsCI.
  rewrite !orb_true_iff, !includes_spec. tauto.
Qed.

Lemma guard_passed (c rest : bool) :
  (if c then false else rest) = true <-> c = false /\ rest = true.
Proof. destruct c; intuition discriminate. Qed.

Lemma toggle_hides (a b : bool) : (a && b)%bool = false <-> (a = true -> b = false).
Proof. destruct a, b; simpl; intuition discriminate. Qed.

Lemma toggle_only (a b : bool) : (a && negb b)%bool = false <-> (a = true -> b = true).
Proof. destruct a, b; simpl; intuition discriminate. Qed.

Lemma toggle_hides_level (a : bool) (x y : string) :
  (a && String.eqb x y)%bool = false <-> (a = true -> x <> y).
Proof.
  destruct a, (String.eqb_spec x y); simpl; intuition (discriminate || congruence).
Qed.

Lemma toggle_only_level (a : bool) (x y : string) :
  (a && negb (String.eqb x y))%bool = false <-> (a = true -> x = y).
Proof.
  destruct a, (String.eqb_spec x y); simpl; intuition (discriminate || congruence).
Qed.

Lemma Qltb_lt (x y : Q) : JS.Qltb x y = true <-> (x < y)%Q.
Proof.
  unfold JS.Qltb. rewrite negb_true_iff, <- not_true_iff_false, Qle_bool_iff.
  split; [apply Qnot_le_lt | apply Qlt_not_le].
Qed.

Lemma threshold_passed (m v : Q) :
  (JS.Qltb 0 m && JS.Qltb v m)%bool = false <-> ((0 < m)%Q -> (m <= v)%Q).
Proof.
  rewrite andb_false_iff, <- !not_true_iff_false, !Qltb_lt.
  split.
  - intros [H|H] Hm; [contradiction | now apply Qnot_lt_le].
  - intros H. destruct (Qlt_le_dec 0 m) as [Hm|Hm].
    + right. apply Qle_not_lt. auto.
    + left. now apply Qle_not_lt.
Qed.

Lemma truthy_nonempty (s : string) : JS.truthy s = true <-> s <> "".
Proof. destruct s; simpl; intuition (discriminate || congruence). Qed.

Lemma search_last (t : Token) (q : string) :
  (if JS.truthy q then searchToken t q else true) = true <->
  (q <> "" -> matchesQuery t q).
Proof.
  rewrite <- searchToken_spec, <- truthy_nonempty.
  destruct (JS.truthy q); intuition discriminate.
Qed.

(** The filter callback of [part_001], clause by clause. *)
Lemma tokenFilter_001_spec (f : FilterState) (t : Token) :
  Part001.tokenFilter f t = true <->
  passesToggles f t /\ passesThresholds f t /\
  (searchQuery f <> "" -> matchesQuery t (searchQuery f)).
Proof.
  unfold Part001.tokenFilter, passesToggles, passesThresholds.
  rewrite !guard_passed, search_last, !threshold_passed,
    !toggle_only_level, !toggle_hides_level, toggle_only, toggle_hides.
  tauto.
Qed.

(** The filter callback of [part_000] and [part_002]. *)
Lemma tokenFilter_000_spec (f : FilterState) (t : Token) :
  Part000.tokenFilter f t = true <->
  passesToggles f t /\ (searchQuery f <> "" -> matchesQuery t (searchQuery f)).
Proof.
  unfold Part000.tokenFilter, passesToggles.
  rewrite !guard_passed, search_last,
    !toggle_only_level, !toggle_hides_level, toggle_only, toggle_hides.
  tauto.
Qed.

End FilterFacts.

(** C1, as stated, fails: with hide-honeypots on, a honeypot whose name
    contains the query is not in the filter result of either revision, so the
    text match does not decide inclusion independently of the other
    filters. *)
Lemma search_does_not_override_toggles :
  searchQuery hideHoneypotsSearchAlp <> "" /\
  In honeypotAlpha [honeypotAlpha] /\
  matchesQuery honeypotAlpha (searchQuery hideHoneypotsSearchAlp) /\
  ~ In honeypotAlpha
      (List.filter (Part001.tokenFilter hideHoneypotsSearchAlp) [honeypotAlpha]) /\
  ~ In honeypotAlpha
      (List.filter (Part000.tokenFilter hideHoneypotsSearchAlp) [honeypotAlpha]) /\
  Part001.filteredTokens [honeypotAlpha] hideHoneypotsSearchAlp = [].
Proof.
  split; [discriminate|].
  split; [now left|].
  split; [apply searchToken_spec; reflexivity|].
  repeat split; simpl; tauto.
Qed.

(** C1, amended: with a non-empty search query a record of the list is in the
    filter result exactly when it passes every enabled toggle (and, in
    [part_001], every threshold above zero) and its name, symbol or
    identifier contains the query, letter case aside: the text match is one
    more condition of the conjunction, evaluated last. *)
Theorem search_is_a_further_condition
    (tokens : list Token) (f : FilterState) (r : Token) :
  searchQuery f <> "" ->
  (In r (List.filter (Part001.tokenFilter f) tokens) <->
   In r tokens /\ passesToggles f r /\ passesThresholds f r /\
   matchesQuery r (searchQuery f)) /\
  (In r (List.filter (Part000.tokenFilter f) tokens) <->
   In r tokens /\ passesToggles f r /\ matchesQuery r (searchQuery f)).
Proof.
  intros Hq. rewrite !filter_In, tokenFilter_001_spec, tokenFilter_000_spec.
  tauto.
Qed.

Lemma search_is_a_further_condition_witness :
  In (sampleToken "Alpha" "0xa" 1)
     (List.filter (Part001.tokenFilter hideHoneypotsSearchAlp)
        [honeypotAlpha; sampleToken "Alpha" "0xa" 1]) <->
  In (sampleToken "Alpha" "0xa" 1) [honeypotAlpha; sampleToken "Alpha" "0xa" 1] /\
  passesToggles hideHoneypotsSearchAlp (sampleToken "Alpha" "0xa" 1) /\
  passesThresholds hideHoneypotsSearchAlp (sampleToken "Alpha" "0xa" 1) /\
  matchesQuery (sampleToken "Alpha" "0xa" 1) (searchQuery hideHoneypotsSearchAlp).
Proof.
  apply (search_is_a_further_condition
           [honeypotAlpha; sampleToken "Alpha" "0xa" 1] hideHoneypotsSearchAlp
           (sampleToken "Alpha" "0xa" 1)).
  simpl. discriminate.
Defined.

(** ** The sort key *)

(** C2, as stated, fails on [part_001] (and [part_002]): the key "age"
    puts the ages 1, 5, 2 in the order 1, 2, 5, and "age_asc" in the order
    5, 2, 1. *)
Lemma age_key_puts_youngest_first :
  map tokenAgeHours (Part001.filteredTokens ages3 defaultFilters)
    <> [5%Q; 2%Q; 1%Q] /\
  map tokenAgeHours (Part001.filteredTokens ages3 defaultFilters)
    = [1%Q; 2%Q; 5%Q] /\
  map tokenAgeHours (Part001.filteredTokens ages3 (withSort "age_asc" defaultFilters))
    = [5%Q; 2%Q; 1%Q] /\
  map tokenAgeHours (Part002.filteredTokens ages3 defaultFilters)
    = [1%Q; 2%Q; 5%Q].
Proof. repeat split; try reflexivity. discriminate. Qed.

(** C2, amended: in [part_001] and [part_002] the age comparator is
    [(b.age - a.age) * direction], so three records with ages 1, 5, 2 come
    out as 1, 2, 5 under the key "age" and as 5, 2, 1 under "age_asc"; in
    [part_000] it is [(a.age - b.age) * direction], which gives 5, 2, 1
    under "age" and 1, 2, 5 under "age_asc".  In the three revisions the
    direction is -1 without the suffix and +1 with it, and it multiplies the
    difference. *)
Theorem age_sort_orders (f : FilterState) (t1 t2 t3 : Token) :
  map tokenAgeHours
    (JS.sort (Part001.compareTokens (withSort "age" f)) (agedOneFiveTwo t1 t2 t3))
    = [1%Q; 2%Q; 5%Q] /\
  map tokenAgeHours
    (JS.sort (Part001.compareTokens (withSort "age_asc" f)) (agedOneFiveTwo t1 t2 t3))
    = [5%Q; 2%Q; 1%Q] /\
  map tokenAgeHours
    (JS.sort (Part002.compareTokens (withSort "age" f)) (agedOneFiveTwo t1 t2 t3))
    = [1%Q; 2%Q; 5%Q] /\
  map tokenAgeHours
    (JS.sort (Part002.compareTokens (withSort "age_asc" f)) (agedOneFiveTwo t1 t2 t3))
    = [5%Q; 2%Q; 1%Q] /\
  map tokenAgeHours
    (JS.sort (Part000.compareTokens (withSort "age" f)) (agedOneFiveTwo t1 t2 t3))
    = [5%Q; 2%Q; 1%Q] /\
  map tokenAgeHours
    (JS.sort (Part000.compareTokens (withSort "age_asc" f)) (agedOneFiveTwo t1 t2 t3))
    = [1%Q; 2%Q; 5%Q] /\
  (forall a b : Token,
     Part001.compareTokens (withSort "age" f) a b
       = ((tokenAgeHours b - tokenAgeHours a) * -1)%Q /\
     Part001.compareTokens (withSort "age_asc" f) a b
       = ((tokenAgeHours b - tokenAgeHours a) * 1)%Q /\
     Part000.compareTokens (withSort "age" f) a b
       = ((tokenAgeHours a - tokenAgeHours b) * -1)%Q /\
     Part000.compareTokens (withSort "age_asc" f) a b
       = ((tokenAgeHours a - tokenAgeHours b) * 1)%Q).
Proof.
  repeat split; reflexivity.
Qed.

(** The other three comparators are the same in the three revisions:
    [(a.x - b.x) * direction]. *)
Lemma other_comparators (f : FilterState) (a b : Token) :
  Part001.compareTokens (withSort "holders" f) a b
    = ((gpHolderCount a - gpHolderCount b) * -1)%Q /\
  Part001.compareTokens (withSort "liquidity_asc" f) a b
    = ((hpLiquidityAmount a - hpLiquidityAmount b) * 1)%Q /\
  Part001.compareTokens (withSort "safetyScore" f) a b
    = ((getRiskScore a - getRiskScore b) * -1)%Q /\
  Part000.compareTokens (withSort "holders_asc" f) a b
    = ((gpHolderCount a - gpHolderCount b) * 1)%Q.
Proof. repeat split; reflexivity. Qed.

(** ** The cap *)

(** C3: for a cap that is not negative the output of the pipeline of
    [part_001] is the first [cap] elements of the sorted filtered sequence;
    that sequence is a permutation of the filtered one and is in the
    comparator's order; and the output is neither the sort of the first
    [cap] filtered records nor the sort of the filter of the first [cap]
    raw records whenever that differs. *)
Theorem cap_follows_sort (tokens : list Token) (f : FilterState) :
  0 <= maxRecords f ->
  let cap := Z.to_nat (maxRecords f) in
  let filtered := List.filter (Part001.tokenFilter f) tokens in
  let sorted := JS.sort (Part001.compareTokens f) filtered in
  Part001.filteredTokens tokens f = firstn cap sorted /\
  Permutation sorted filtered /\
  LocallySorted (inOrder (Part001.compareTokens f)) sorted /\
  (firstn cap sorted <> JS.sort (Part001.compareTokens f) (firstn cap filtered) ->
   Part001.filteredTokens tokens f
     <> JS.sort (Part001.compareTokens f) (firstn cap filtered)) /\
  (firstn cap sorted
     <> JS.sort (Part001.compareTokens f)
          (List.filter (Part001.tokenFilter f) (firstn cap tokens)) ->
   Part001.filteredTokens tokens f
     <> JS.sort (Part001.compareTokens f)
          (List.filter (Part001.tokenFilter f) (firstn cap tokens))).
Proof.
  intros Hcap cap filtered sorted.
  assert (Hout : Part001.filteredTokens tokens f = firstn cap sorted)
    by (unfold Part001.filteredTokens; cbv zeta; now rewrite slice0_nonneg).
  split; [exact Hout|].
  split; [apply sort_perm|].
  split; [apply sort_sorted, flip_inOrder, compareTokens_flip_001|].
  rewrite Hout. split; intros H; exact H.
Qed.

Lemma cap_follows_sort_witness :
  let f := withCap 2 (withSort "age_asc" defaultFilters) in
  map tokenAgeHours (Part001.filteredTokens ages3 f) = [5%Q; 2%Q] /\
  map tokenAgeHours
    (JS.sort (Part001.compareTokens f)
       (firstn 2 (List.filter (Part001.tokenFilter f) ages3))) = [5%Q; 1%Q] /\
  Part001.filteredTokens ages3 f
    <> JS.sort (Part001.compareTokens f)
         (firstn 2 (List.filter (Part001.tokenFilter f) ages3)).
Proof.
  intros f.
  split; [reflexivity|]. split; [reflexivity|].
  apply (cap_follows_sort ages3 f); [simpl; lia | discriminate].
Defined.

(** C7, as stated, fails: a cap of zero empties the result, and a cap of -1
    drops the last record of the sorted sequence. *)
Lemma nonpositive_cap_shortens :
  map tokenAgeHours (Part001.filteredTokens ages3 (withCap 0 defaultFilters)) = [] /\
  map tokenAgeHours (Part001.filteredTokens ages3 (withCap (-1) defaultFilters))
    = [1%Q; 2%Q] /\
  map tokenAgeHours
    (JS.sort (Part001.compareTokens (withCap 0 defaultFilters))
       (List.filter (Part001.tokenFilter (withCap 0 defaultFilters)) ages3))
    = [1%Q; 2%Q; 5%Q].
Proof. repeat split; reflexivity. Qed.

(** C7, amended: with a cap of zero the pipeline returns the empty
    sequence; with a negative cap [-k] it returns the sorted filtered
    sequence without its last [k] elements (the empty sequence when it has
    at most [k]). *)
Theorem nonpositive_cap_counts_from_end (tokens : list Token) (f : FilterState) :
  maxRecords f <= 0 ->
  let sorted :=
    JS.sort (Part001.compareTokens f) (List.filter (Part001.tokenFilter f) tokens) in
  Part001.filteredTokens tokens f =
    if maxRecords f =? 0 then []
    else firstn (List.length sorted - Z.to_nat (- maxRecords f)) sorted.
Proof.
  intros Hcap sorted. unfold Part001.filteredTokens. cbv zeta. fold sorted.
  destruct (Z.eqb_spec (maxRecords f) 0) as [->|Hne].
  - apply slice0_zero.
  - apply slice0_neg. lia.
Qed.

Lemma nonpositive_cap_counts_from_end_witness :
  Part001.filteredTokens ages3 (withCap (-2) defaultFilters)
    = [sampleToken "A" "0xa" 1].
Proof.
  rewrite (nonpositive_cap_counts_from_end ages3 (withCap (-2) defaultFilters));
    [reflexivity | simpl; lia].
Defined.

(** ** Unrecognized sort keys *)

Lemma unrecognized_field (key : string) :
  ~ In key recognizedSortKeys ->
  String.eqb (sortFieldOf key) "age" = false /\
  String.eqb (sortFieldOf key) "holders" = false /\
  String.eqb (sortFieldOf key) "liquidity" = false /\
  String.eqb (sortFieldOf key) "safetyScore" = false.
Proof.
  intros Hkey.
  repeat split; apply String.eqb_neq; intros E;
    apply sortFieldOf_inv in E; try reflexivity;
    apply Hkey; destruct E as [-> | ->]; simpl; tauto.
Qed.

(** C8: when the sort key is none of the four fields, with or without the
    suffix, the comparator of [part_001] returns 0 for every pair, the sort
    leaves the filtered sequence in its order, and the pipeline returns the
    slice of the filtered sequence. *)
Theorem unrecognized_key_keeps_order (tokens : list Token) (f : FilterState) :
  ~ In (sortBy f) recognizedSortKeys ->
  (forall a b, Part001.compareTokens f a b = 0%Q) /\
  JS.sort (Part001.compareTokens f) (List.filter (Part001.tokenFilter f) tokens)
    = List.filter (Part001.tokenFilter f) tokens /\
  Part001.filteredTokens tokens f
    = JS.slice0 (List.filter (Part001.tokenFilter f) tokens) (maxRecords f).
Proof.
  intros Hkey.
  assert (Hzero : forall a b, Part001.compareTokens f a b = 0%Q).
  { intros a b. unfold Part001.compareTokens. cbv zeta.
    destruct (unrecognized_field _ Hkey) as (-> & -> & -> & ->). reflexivity. }
  assert (Hsort : forall l, JS.sort (Part001.compareTokens f) l = l).
  { intros l. apply sort_passthrough. intros a b. now rewrite Hzero. }
  split; [exact Hzero|]. split; [apply Hsort|].
  unfold Part001.filteredTokens. cbv zeta. now rewrite Hsort.
Qed.

Lemma unrecognized_key_keeps_order_witness :
  map tokenAgeHours (Part001.filteredTokens ages3 (withSort "name_asc" defaultFilters))
    = [1%Q; 5%Q; 2%Q].
Proof.
  destruct (unrecognized_key_keeps_order ages3 (withSort "name_asc" defaultFilters))
    as (_ & _ & ->); [|reflexivity].
  simpl. intros H. repeat (destruct H as [H|H]; [discriminate|]). exact H.
Defined.

(** ** The expansion store *)

Section ExpansionFacts.

Lemma hasExpanded_spec (currentTokens : list Token) (prev : gset string) :
  existsb (fun token => bool_decide (tokenAddress token ∈ prev)) currentTokens = true
  <-> exists t, In t currentTokens /\ tokenAddress t ∈ prev.
Proof.
  rewrite existsb_exists. split; intros (t & Ht & Hin); exists t; split; trivial.
  - now apply bool_decide_eq_true in Hin.
  - now apply bool_decide_eq_true.
Qed.

Lemma none_expanded (currentTokens : list Token) (prev : gset string) :
  (forall t, In t currentTokens -> tokenAddress t ∉ prev) ->
  expandAllOnClick currentTokens prev = list_to_set (map tokenAddress currentTokens).
Proof.
  intros Hnone. unfold expandAllOnClick.
  destruct (existsb _ currentTokens) eqn:E; [|reflexivity].
  apply hasExpanded_spec in E as (t & Ht & Hin). now destruct (Hnone t Ht).
Qed.

Lemma some_expanded (currentTokens : list Token) (prev : gset string) :
  (exists t, In t currentTokens /\ tokenAddress t ∈ prev) ->
  expandAllOnClick currentTokens prev = ∅.
Proof.
  intros H. apply hasExpanded_spec in H. unfold expandAllOnClick. now rewrite H.
Qed.

Lemma elem_of_addresses (currentTokens : list Token) (id : string) :
  id ∈ (list_to_set (map tokenAddress currentTokens) : gset string)
  <-> exists t, In t currentTokens /\ tokenAddress t = id.
Proof.
  rewrite elem_of_list_to_set, list_elem_of_In, in_map_iff.
  split; intros (t & H1 & H2); exists t; tauto.
Qed.

End ExpansionFacts.

(** C4, as stated, fails: with "0xold" expanded and filtered out, and the
    one filtered record not expanded, expand-all leaves "0xold" out of the
    expansion set. *)
Lemma expand_all_drops_filtered_out_ids :
  let currentTokens := [sampleToken "A" "0xa" 1] in
  let prev : gset string := {["0xold"]} in
  (forall t, In t currentTokens -> tokenAddress t ∉ prev) /\
  ~ (exists t, In t currentTokens /\ tokenAddress t = "0xold") /\
  "0xold" ∈ prev /\
  "0xold" ∉ expandAllOnClick currentTokens prev.
Proof.
  intros currentTokens prev.
  assert (Hnone : forall t, In t currentTokens -> tokenAddress t ∉ prev).
  { intros t [<-|[]]. simpl. unfold prev. set_solver. }
  split; [exact Hnone|].
  split; [intros (t & [<-|[]] & E); discriminate|].
  split; [unfold prev; set_solver|].
  rewrite (none_expanded _ _ Hnone), elem_of_addresses.
  intros (t & [<-|[]] & E). discriminate.
Qed.

(** C4, amended: when no identifier of the filtered sequence is expanded,
    expand-all makes the expansion set exactly the identifiers of the
    filtered sequence: each of them is expanded, and every identifier
    outside the filtered sequence is not, also one that was expanded
    before. *)
Theorem expand_all_sets_exactly_filtered
    (currentTokens : list Token) (prev : gset string) :
  (forall t, In t currentTokens -> tokenAddress t ∉ prev) ->
  forall id : string,
    id ∈ expandAllOnClick currentTokens prev
    <-> exists t, In t currentTokens /\ tokenAddress t = id.
Proof.
  intros Hnone id. rewrite (none_expanded _ _ Hnone). apply elem_of_addresses.
Qed.

Lemma expand_all_sets_exactly_filtered_witness :
  "0xb" ∈ expandAllOnClick ages3 {["0xold"]}.
Proof.
  apply (expand_all_sets_exactly_filtered ages3 {["0xold"]}).
  - intros t Ht. simpl in Ht.
    destruct Ht as [<-|[<-|[<-|[]]]]; simpl; set_solver.
  - exists (sampleToken "B" "0xb" 5). simpl. tauto.
Defined.

(** C5: the toggle looks for an expanded record in the filtered sequence;
    with one it returns the empty set, whatever else the set held; with none
    it returns the set of the identifiers of the filtered sequence. *)
Theorem expand_all_or_collapse_all (currentTokens : list Token) (prev : gset string) :
  ((exists t, In t currentTokens /\ tokenAddress t ∈ prev) ->
   expandAllOnClick currentTokens prev = ∅) /\
  ((forall t, In t currentTokens -> tokenAddress t ∉ prev) ->
   expandAllOnClick currentTokens prev = list_to_set (map tokenAddress currentTokens) /\
   forall id : string,
     id ∈ expandAllOnClick currentTokens prev <-> In id (map tokenAddress currentTokens)).
Proof.
  split; [apply some_expanded|].
  intros Hnone. rewrite (none_expanded _ _ Hnone).
  split; [reflexivity|].
  intros id. now rewrite elem_of_list_to_set, list_elem_of_In.
Qed.

Lemma expand_all_or_collapse_all_witness :
  expandAllOnClick ages3 {["0xold"; "0xc"]} = ∅ /\
  expandAllOnClick ages3 ∅ = list_to_set ["0xa"; "0xb"; "0xc"].
Proof.
  split.
  - apply (expand_all_or_collapse_all ages3 {["0xold"; "0xc"]}).
    exists (sampleToken "C" "0xc" 2). split; [simpl; tauto | simpl; set_solver].
  - apply (expand_all_or_collapse_all ages3 ∅). intros t _. set_solver.
Defined.

(** C10: toggling an identifier twice gives the set back; one toggle adds
    the identifier when it is absent and removes it when it is present,
    changes the membership of no other identifier, and looks at nothing but
    the set. *)
Theorem toggle_involution (prev : gset string) (address : string) :
  toggleTokenExpansion address (toggleTokenExpansion address prev) = prev /\
  (address ∈ toggleTokenExpansion address prev <-> address ∉ prev) /\
  (forall other : string,
     other <> address ->
     (other ∈ toggleTokenExpansion address prev <-> other ∈ prev)) /\
  (address ∉ prev -> toggleTokenExpansion address prev = prev ∪ {[address]}) /\
  (address ∈ prev -> toggleTokenExpansion address prev = prev ∖ {[address]}).
Proof.
  unfold toggleTokenExpansion. cbv zeta.
  destruct (decide (address ∈ prev)) as [Hin|Hout].
  - rewrite decide_False by set_solver.
    repeat split; try set_solver.
    apply set_eq. intros x. destruct (decide (x = address)); set_solver.
  - rewrite decide_True by set_solver.
    repeat split; try set_solver.
Qed.

Lemma toggle_involution_witness :
  toggleTokenExpansion "0xa" {["0xb"]} = {["0xb"]} ∪ {["0xa"]} /\
  toggleTokenExpansion "0xb" {["0xb"]} = {["0xb"]} ∖ {["0xb"]} /\
  ("0xc" ∈ toggleTokenExpansion "0xa" {["0xc"]} <-> "0xc" ∈ ({["0xc"]} : gset string)).
Proof.
  split; [|split].
  - apply (toggle_involution {["0xb"]} "0xa"). set_solver.
  - apply (toggle_involution {["0xb"]} "0xb"). set_solver.
  - apply (toggle_involution {["0xc"]} "0xa"). discriminate.
Defined.

(** ** The size estimator *)

Section SizeFacts.

Lemma flags_sum (b1 b2 b3 b4 b5 b6 b7 b8 b9 : bool) :
  Part001.flag b1 + Part001.flag b2 + Part001.flag b3 + Part001.flag b4 +
  Part001.flag b5 + Part001.flag b6 + Part001.flag b7 + Part001.flag b8 +
  Part001.flag b9 = countTrue [b1; b2; b3; b4; b5; b6; b7; b8; b9].
Proof. destruct b1, b2, b3, b4, b5, b6, b7, b8, b9; reflexivity. Qed.

Lemma countTrue_positive (l : list bool) :
  (0 <? countTrue l) = existsb (fun b : bool => b) l.
Proof.
  unfold countTrue. induction l as [|b l IH]; [reflexivity|].
  destruct b; simpl; [|exact IH].
  apply Z.ltb_lt. lia.
Qed.

End SizeFacts.

(** C6: for a record of the sequence, [estimateSize] is 84 when the record
    is not expanded; when it is expanded it is the sum of the fixed section
    heights (2500), plus 40 for each present optional field, plus, exactly
    when one of the nine risk flags is true, 80 and 24 for each true flag. *)
Theorem estimateSize_formula
    (filtered : list Token) (expanded : gset string) (index : nat) (token : Token) :
  nth_error filtered index = Some token ->
  (tokenAddress token ∉ expanded ->
   Part001.estimateSize filtered expanded index = 84) /\
  (tokenAddress token ∈ expanded ->
   Part001.estimateSize filtered expanded index =
     fold_right Z.add 0 fixedSectionHeights
     + 40 * countTrue (optionalFieldsPresent token)
     + (if existsb (fun b : bool => b) (riskFlags token)
        then 80 + 24 * countTrue (riskFlags token) else 0)) /\
  fold_right Z.add 0 fixedSectionHeights = 2500.
Proof.
  intros Hnth. unfold Part001.estimateSize. rewrite Hnth.
  split; [|split; [|reflexivity]].
  - intros Hout. now rewrite bool_decide_eq_false_2.
  - intros Hin. rewrite bool_decide_eq_true_2 by exact Hin.
    cbv zeta. cbn [negb]. rewrite flags_sum. fold (riskFlags token).
    rewrite countTrue_positive.
    change (fold_right Z.add 0 fixedSectionHeights) with 2500.
    set (warningCount := countTrue (riskFlags token)).
    unfold optionalFieldsPresent.
    destruct (existsb _ (riskFlags token));
      destruct (JS.truthyOpt (gpTrustList token)),
               (JS.truthyOpt (gpOtherPotentialRisks token)),
               (JS.truthyOpt (gpHolders token)),
               (JS.truthyOpt (gpLpHolders token)),
               (JS.truthyOpt (gpDexInfo token));
      unfold countTrue; simpl List.filter; simpl List.length; lia.
Qed.

Lemma estimateSize_formula_witness :
  Part001.estimateSize [honeypotAlpha] {["0xa1"]} 0 = 2732 /\
  Part001.estimateSize [honeypotAlpha] ∅ 0 = 84.
Proof.
  destruct (estimateSize_formula [honeypotAlpha] {["0xa1"]} 0 honeypotAlpha eq_refl)
    as (_ & Hexp & _).
  destruct (estimateSize_formula [honeypotAlpha] ∅ 0 honeypotAlpha eq_refl)
    as (Hcompact & _ & _).
  split.
  - rewrite Hexp; [reflexivity | simpl; set_solver].
  - apply Hcompact. simpl. set_solver.
Defined.

(** Beyond the sequence the estimator answers 60. *)
Lemma estimateSize_out_of_range (filtered : list Token) (expanded : gset string) (index : nat) :
  (List.length filtered <= index)%nat ->
  Part001.estimateSize filtered expanded index = 60.
Proof.
  intros H. unfold Part001.estimateSize.
  now apply nth_error_None in H as ->.
Qed.

(** ** Persisted filters *)

(** C9, as stated, fails: a stored payload that is JSON but not a filter
    object is returned as it was parsed; the fallback is not used. *)
Lemma parsed_payload_is_not_validated :
  Part001.getSavedFilters JSON.parse (Some "{}") = FromStorage (JObj []) /\
  Part001.getSavedFilters JSON.parse (Some "null") = FromStorage JNull /\
  Part001.getSavedFilters JSON.parse (Some ("{" ++ JSON.quoted "maxRecords" ++ ": -3}"))
    = FromStorage (JObj [("maxRecords", JNum (-3))]) /\
  Part001.getSavedFilters JSON.parse (Some "{}") <> Fallback defaultFilters.
Proof. repeat split; try reflexivity. discriminate. Qed.

(** C9, amended: when nothing is stored, when the stored text is empty, or
    when [JSON.parse] throws on the stored text, [getSavedFilters] returns
    the fallback: thresholds 0, the five toggles false, empty search, sort
    key "age" (the descending spelling), direction "desc", cap 50.  A
    stored text on which [JSON.parse] succeeds is returned as parsed. *)
Theorem unparsable_filters_fall_back
    (parse : string -> option JSValue) (saved : option string) :
  ((saved = None \/ saved = Some "" \/
    exists text, saved = Some text /\ parse text = None) ->
   Part001.getSavedFilters parse saved = Fallback defaultFilters) /\
  (forall text payload,
     saved = Some text -> text <> "" -> parse text = Some payload ->
     Part001.getSavedFilters parse saved = FromStorage payload) /\
  (minHolders defaultFilters = 0%Q /\ minLiquidity defaultFilters = 0%Q /\
   hideHoneypots defaultFilters = false /\ showOnlyHoneypots defaultFilters = false /\
   hideDanger defaultFilters = false /\ hideWarning defaultFilters = false /\
   showOnlySafe defaultFilters = false /\ searchQuery defaultFilters = "" /\
   sortBy defaultFilters = "age" /\ sortDirection defaultFilters = "desc" /\
   sortDirectionOf (sortBy defaultFilters) = (-1)%Q /\
   maxRecords defaultFilters = 50).
Proof.
  split; [|split].
  - intros [-> | [-> | (text & -> & Hfail)]]; try reflexivity.
    unfold Part001.getSavedFilters. rewrite Hfail. now destruct (JS.truthy text).
  - intros text payload -> Htext Hparsed.
    unfold Part001.getSavedFilters. rewrite Hparsed.
    apply truthy_nonempty in Htext. now rewrite Htext.
  - repeat split.
Qed.

Lemma unparsable_filters_fall_back_witness :
  Part001.getSavedFilters JSON.parse (Some "{minHolders") = Fallback defaultFilters /\
  Part001.getSavedFilters JSON.parse None = Fallback defaultFilters /\
  Part001.getSavedFilters JSON.parse (Some "[1, 2]") = FromStorage (JArr [JNum 1; JNum 2]).
Proof.
  split; [|split].
  - apply (unparsable_filters_fall_back JSON.parse (Some "{minHolders")).
    right. right. exists "{minHolders". split; reflexivity.
  - apply (unparsable_filters_fall_back JSON.parse None). now left.
  - apply (unparsable_filters_fall_back JSON.parse (Some "[1, 2]")) with "[1, 2]".
    + reflexivity.
    + discriminate.
    + reflexivity.
Defined.

(** * Further properties of the components *)

(** ** The pipeline of [part_001] *)

Section PipelineFacts.

Lemma slice0_is_firstn {A : Type} (l : list A) (e : Z) :
  exists n, JS.slice0 l e = firstn n l.
Proof. unfold JS.slice0. eexists. reflexivity. Qed.

Lemma sorted_firstn {A : Type} (R : A -> A -> Prop) (n : nat) (l : list A) :
  LocallySorted R l -> LocallySorted R (firstn n l).
Proof.
  intros H. revert n. induction H as [|x|x y l Hl IH Hxy]; intros n.
  - rewrite firstn_nil. constructor.
  - destruct n as [|[|n]]; simpl; constructor.
  - destruct n as [|[|n]]; simpl; try constructor; trivial.
    exact (IH (S n)).
Qed.

Lemma sorted_weaken {A : Type} (R S : A -> A -> Prop) (l : list A) :
  (forall a b, R a b -> S a b) -> LocallySorted R l -> LocallySorted S l.
Proof. intros HRS H. induction H; constructor; auto. Qed.

Lemma sort_same_sign {A : Type} (c1 c2 : A -> A -> Q) (l : list A) :
  (forall a b, Qle_bool (c1 a b) 0 = Qle_bool (c2 a b) 0) ->
  JS.sort c1 l = JS.sort c2 l.
Proof.
  intros Hsign. induction l as [|x l IH]; simpl; [reflexivity|].
  rewrite IH. generalize (JS.sort c2 l). intros s.
  induction s as [|y s IHs]; simpl; [reflexivity|].
  now rewrite Hsign, IHs.
Qed.

Lemma pipeline_in_order (tokens : list Token) (f : FilterState) :
  LocallySorted (inOrder (Part001.compareTokens f)) (Part001.filteredTokens tokens f).
Proof.
  unfold Part001.filteredTokens. cbv zeta.
  destruct (slice0_is_firstn
              (JS.sort (Part001.compareTokens f)
                 (List.filter (Part001.tokenFilter f) tokens)) (maxRecords f))
    as [n ->].
  apply sorted_firstn, sort_sorted, flip_inOrder, compareTokens_flip_001.
Qed.

Lemma filter_all {A : Type} (p : A -> bool) (l : list A) :
  (forall x, In x l -> p x = true) -> List.filter p l = l.
Proof.
  induction l as [|x l IH]; simpl; intros H; [reflexivity|].
  rewrite (H x) by now left. f_equal. apply IH. intros y Hy. apply H. now right.
Qed.

Lemma filter_none {A : Type} (p : A -> bool) (l : list A) :
  (forall x, p x = false) -> List.filter p l = [].
Proof.
  intros H. induction l as [|x l IH]; simpl; [reflexivity|]. now rewrite H.
Qed.



End PipelineFacts.

(** X1: whatever the cap, every record of the output is a record of the
    input that passes the filter, and the output together with some dropped
    records is a rearrangement of the records that pass: nothing is
    invented and nothing is duplicated. *)
Theorem pipeline_output_sound (tokens : list Token) (f : FilterState) :
  Forall (fun r => In r tokens /\ Part001.tokenFilter f r = true)
         (Part001.filteredTokens tokens f) /\
  exists dropped,
    Permutation (Part001.filteredTokens tokens f ++ dropped)
                (List.filter (Part001.tokenFilter f) tokens).
Proof.
  unfold Part001.filteredTokens. cbv zeta.
  set (sorted := JS.sort (Part001.compareTokens f)
                   (List.filter (Part001.tokenFilter f) tokens)).
  destruct (slice0_is_firstn sorted (maxRecords f)) as [n ->].
  assert (Hperm : Permutation sorted (List.filter (Part001.tokenFilter f) tokens))
    by apply sort_perm.
  split.
  - apply List.Forall_forall. intros r Hr.
    apply filter_In. eapply Permutation_in; [exact Hperm|].
    rewrite <- (firstn_skipn n sorted). apply in_or_app. now left.
  - exists (skipn n sorted). now rewrite firstn_skipn.
Qed.

(** X2: for a cap that is not negative the output has exactly
    min(cap, number of records that pass the filter) records. *)
Theorem pipeline_output_size (tokens : list Token) (f : FilterState) :
  0 <= maxRecords f ->
  Z.of_nat (List.length (Part001.filteredTokens tokens f)) =
  Z.min (maxRecords f)
        (Z.of_nat (List.length (List.filter (Part001.tokenFilter f) tokens))).
Proof.
  intros Hcap. unfold Part001.filteredTokens. cbv zeta.
  rewrite slice0_nonneg by exact Hcap.
  rewrite length_firstn, sort_length. lia.
Qed.

Lemma pipeline_output_size_witness :
  Z.of_nat (List.length (Part001.filteredTokens ages3 (withCap 2 defaultFilters))) =
  Z.min 2 (Z.of_nat (List.length
     (List.filter (Part001.tokenFilter (withCap 2 defaultFilters)) ages3))).
Proof.
  apply (pipeline_output_size ages3 (withCap 2 defaultFilters)). simpl. lia.
Defined.

(** X3: with every toggle off, no threshold above zero and an empty search
    the filter keeps every record, and with a cap of at least the length of
    the input the output is a rearrangement of the whole input. *)
Theorem no_filter_keeps_everything (tokens : list Token) (f : FilterState) :
  noFilterActive f ->
  List.filter (Part001.tokenFilter f) tokens = tokens /\
  (Z.of_nat (List.length tokens) <= maxRecords f ->
   Permutation (Part001.filteredTokens tokens f) tokens).
Proof.
  intros (H1 & H2 & H3 & H4 & H5 & H6 & H7 & H8).
  assert (Hall : List.filter (Part001.tokenFilter f) tokens = tokens).
  { apply filter_all. intros t _. apply tokenFilter_001_spec.
    unfold passesToggles, passesThresholds. rewrite H1, H2, H3, H4, H5, H8.
    repeat split; try discriminate; try congruence; intros Hpos; exfalso; lra. }
  split; [exact Hall|].
  intros Hcap. unfold Part001.filteredTokens. cbv zeta. rewrite Hall.
  rewrite slice0_nonneg by lia.
  rewrite firstn_all2 by (rewrite sort_length; lia).
  apply sort_perm.
Qed.

Lemma no_filter_keeps_everything_witness :
  List.filter (Part001.tokenFilter defaultFilters) (honeypotAlpha :: ages3)
    = honeypotAlpha :: ages3.
Proof.
  apply (no_filter_keeps_everything (honeypotAlpha :: ages3) defaultFilters).
  unfold noFilterActive. simpl. repeat split; try reflexivity; lra.
Defined.

(** X4: the output is ordered by the attribute of the key: holders,
    liquidity and safety score from high to low without the suffix and from
    low to high with it; age from young to old under "age" and from old to
    young under "age_asc". *)
Theorem output_ordered_by_attribute (tokens : list Token) (f : FilterState) :
  LocallySorted (fun a b => (gpHolderCount b <= gpHolderCount a)%Q)
    (Part001.filteredTokens tokens (withSort "holders" f)) /\
  LocallySorted (fun a b => (gpHolderCount a <= gpHolderCount b)%Q)
    (Part001.filteredTokens tokens (withSort "holders_asc" f)) /\
  LocallySorted (fun a b => (hpLiquidityAmount b <= hpLiquidityAmount a)%Q)
    (Part001.filteredTokens tokens (withSort "liquidity" f)) /\
  LocallySorted (fun a b => (hpLiquidityAmount a <= hpLiquidityAmount b)%Q)
    (Part001.filteredTokens tokens (withSort "liquidity_asc" f)) /\
  LocallySorted (fun a b => (getRiskScore b <= getRiskScore a)%Q)
    (Part001.filteredTokens tokens (withSort "safetyScore" f)) /\
  LocallySorted (fun a b => (tokenAgeHours a <= tokenAgeHours b)%Q)
    (Part001.filteredTokens tokens (withSort "age" f)) /\
  LocallySorted (fun a b => (tokenAgeHours b <= tokenAgeHours a)%Q)
    (Part001.filteredTokens tokens (withSort "age_asc" f)).
Proof.
  repeat split;
    (eapply sorted_weaken; [|apply pipeline_in_order]);
    intros a b;
    unfold inOrder, Part001.compareTokens, sortFieldOf, sortDirectionOf;
    simpl; lra.
Qed.

Section HeadFacts.
Context {A : Type} (cmp : A -> A -> Q).
Hypothesis cmp_flip : forall a b, ~ inOrder cmp a b -> inOrder cmp b a.
Hypothesis cmp_trans :
  forall a b c, inOrder cmp a b -> inOrder cmp b c -> inOrder cmp a c.

Lemma head_precedes (l : list A) (n : nat) (r : A) :
  (0 < n)%nat -> In r l ->
  exists top rest,
    firstn n (JS.sort cmp l) = top :: rest /\ (r = top \/ inOrder cmp top r).
Proof.
  intros Hn Hr.
  assert (Hin : In r (JS.sort cmp l))
    by (eapply Permutation_in; [apply Permutation_sym, sort_perm | exact Hr]).
  assert (Hs : StronglySorted (inOrder cmp) (JS.sort cmp l)).
  { apply Sorted_StronglySorted; [exact cmp_trans|].
    apply Sorted_LocallySorted_iff, sort_sorted, cmp_flip. }
  destruct (JS.sort cmp l) as [|top s]; [destruct Hin|].
  destruct n as [|n]; [lia|].
  exists top, (firstn n s). split; [reflexivity|].
  destruct Hin as [->|Hin]; [now left|right].
  apply StronglySorted_inv in Hs as [_ Hall].
  exact (proj1 (List.Forall_forall _ _) Hall r Hin).
Qed.

End HeadFacts.

(** X5: when a record passes the filter and the cap is positive, the output
    is not empty and its first record is the best one: no passing record
    has more liquidity under the key "liquidity", more holders under
    "holders", or a smaller age under "age". *)
Theorem first_record_is_the_best (tokens : list Token) (f : FilterState) (r : Token) :
  0 < maxRecords f -> In r tokens -> Part001.tokenFilter f r = true ->
  (exists top rest,
     Part001.filteredTokens tokens (withSort "liquidity" f) = top :: rest /\
     (hpLiquidityAmount r <= hpLiquidityAmount top)%Q) /\
  (exists top rest,
     Part001.filteredTokens tokens (withSort "holders" f) = top :: rest /\
     (gpHolderCount r <= gpHolderCount top)%Q) /\
  (exists top rest,
     Part001.filteredTokens tokens (withSort "age" f) = top :: rest /\
     (tokenAgeHours top <= tokenAgeHours r)%Q).
Proof.
  intros Hcap Hr Hpass.
  assert (Hin : In r (List.filter (Part001.tokenFilter f) tokens))
    by (apply filter_In; now split).
  assert (Hn : (0 < Z.to_nat (maxRecords f))%nat) by lia.
  assert (Hout : forall key,
    Part001.filteredTokens tokens (withSort key f) =
    firstn (Z.to_nat (maxRecords f))
      (JS.sort (Part001.compareTokens (withSort key f))
         (List.filter (Part001.tokenFilter f) tokens))).
  { intros key.
    change (Part001.filteredTokens tokens (withSort key f))
      with (JS.slice0
              (JS.sort (Part001.compareTokens (withSort key f))
                 (List.filter (Part001.tokenFilter f) tokens)) (maxRecords f)).
    apply slice0_nonneg. lia. }
  repeat split; rewrite Hout.
  - destruct (head_precedes (Part001.compareTokens (withSort "liquidity" f))
                (flip_inOrder _ (compareTokens_flip_001 _))
                (fun a b c => ltac:(unfold inOrder, Part001.compareTokens,
                                      sortFieldOf, sortDirectionOf; simpl; lra))
                _ _ r Hn Hin) as (top & rest & E & [->|Hle]).
    + exists top, rest. split; [exact E | lra].
    + exists top, rest. split; [exact E|]. revert Hle.
      unfold inOrder, Part001.compareTokens, sortFieldOf, sortDirectionOf.
      simpl. lra.
  - destruct (head_precedes (Part001.compareTokens (withSort "holders" f))
                (flip_inOrder _ (compareTokens_flip_001 _))
                (fun a b c => ltac:(unfold inOrder, Part001.compareTokens,
                                      sortFieldOf, sortDirectionOf; simpl; lra))
                _ _ r Hn Hin) as (top & rest & E & [->|Hle]).
    + exists top, rest. split; [exact E | lra].
    + exists top, rest. split; [exact E|]. revert Hle.
      unfold inOrder, Part001.compareTokens, sortFieldOf, sortDirectionOf.
      simpl. lra.
  - destruct (head_precedes (Part001.compareTokens (withSort "age" f))
                (flip_inOrder _ (compareTokens_flip_001 _))
                (fun a b c => ltac:(unfold inOrder, Part001.compareTokens,
                                      sortFieldOf, sortDirectionOf; simpl; lra))
                _ _ r Hn Hin) as (top & rest & E & [->|Hle]).
    + exists top, rest. split; [exact E | lra].
    + exists top, rest. split; [exact E|]. revert Hle.
      unfold inOrder, Part001.compareTokens, sortFieldOf, sortDirectionOf.
      simpl. lra.
Qed.

Lemma first_record_is_the_best_witness :
  exists top rest,
    Part001.filteredTokens ages3 (withSort "age" defaultFilters) = top :: rest /\
    (tokenAgeHours top <= tokenAgeHours (sampleToken "B" "0xb" 5))%Q.
Proof.
  apply (first_record_is_the_best ages3 defaultFilters (sampleToken "B" "0xb" 5)).
  - simpl. lia.
  - simpl. tauto.
  - reflexivity.
Defined.

(** X6: with "hide honeypots" and "show only honeypots" both on, no record
    passes, in any revision. *)
Theorem contradictory_honeypot_toggles (tokens : list Token) (f : FilterState) :
  hideHoneypots f = true -> showOnlyHoneypots f = true ->
  Part001.filteredTokens tokens f = [] /\
  Part000.filteredTokens tokens f = [] /\
  Part002.filteredTokens tokens f = [].
Proof.
  intros Hhide Honly.
  assert (H1 : forall t, Part001.tokenFilter f t = false)
    by (intros t; unfold Part001.tokenFilter; rewrite Hhide, Honly;
        now destruct (hpIsHoneypot t)).
  assert (H0 : forall t, Part000.tokenFilter f t = false)
    by (intros t; unfold Part000.tokenFilter; rewrite Hhide, Honly;
        now destruct (hpIsHoneypot t)).
  unfold Part001.filteredTokens, Part000.filteredTokens, Part002.filteredTokens,
    Part002.tokenFilter.
  cbv zeta. rewrite (filter_none _ _ H1), (filter_none _ _ H0).
  simpl. unfold JS.slice0. now rewrite firstn_nil.
Qed.

Lemma contradictory_honeypot_toggles_witness :
  Part001.filteredTokens (honeypotAlpha :: ages3)
    {| minHolders := 0; minLiquidity := 0;
       hideHoneypots := true; showOnlyHoneypots := true;
       hideDanger := false; hideWarning := false; showOnlySafe := false;
       searchQuery := ""; sortBy := "age"; sortDirection := "desc";
       maxRecords := 50;
       hideStagnantHolders := false; hideStagnantLiquidity := false;
       stagnantRecordCount := 10 |} = [].
Proof.
  eapply proj1. apply contradictory_honeypot_toggles; reflexivity.
Defined.

(** X7: with "show only safe" on, the "hide danger" and "hide warning"
    check boxes change nothing in the output. *)
Theorem only_safe_makes_hiding_redundant
    (tokens : list Token) (f : FilterState) (d w : bool) :
  showOnlySafe f = true ->
  Part001.filteredTokens tokens (withRiskHiding d w f) = Part001.filteredTokens tokens f.
Proof.
  intros Hsafe.
  assert (Hsame : forall t,
    Part001.tokenFilter (withRiskHiding d w f) t = Part001.tokenFilter f t).
  { intros t. apply eq_true_iff_eq. rewrite !tokenFilter_001_spec.
    unfold passesToggles, passesThresholds. simpl. rewrite Hsafe.
    split; intros ((H1 & H2 & H3 & H4 & H5) & H6 & H7);
      (split; [|split]; trivial);
      repeat split; trivial; intros _ E;
      rewrite (H5 eq_refl) in E; discriminate. }
  unfold Part001.filteredTokens. cbv zeta.
  rewrite (filter_ext _ _ Hsame). reflexivity.
Qed.

Lemma only_safe_makes_hiding_redundant_witness :
  let f := {| minHolders := 0; minLiquidity := 0;
       hideHoneypots := false; showOnlyHoneypots := false;
       hideDanger := false; hideWarning := false; showOnlySafe := true;
       searchQuery := ""; sortBy := "age"; sortDirection := "desc";
       maxRecords := 50;
       hideStagnantHolders := false; hideStagnantLiquidity := false;
       stagnantRecordCount := 10 |} in
  Part001.filteredTokens (honeypotAlpha :: ages3) (withRiskHiding true true f)
    = Part001.filteredTokens (honeypotAlpha :: ages3) f.
Proof.
  intros f. apply (only_safe_makes_hiding_redundant (honeypotAlpha :: ages3) f).
  reflexivity.
Defined.


(** X9: with both thresholds at zero or below, the pipeline of [part_001]
    returns what the pipeline of [part_002] returns. *)
Theorem thresholds_off_same_as_part_002 (tokens : list Token) (f : FilterState) :
  (minHolders f <= 0)%Q -> (minLiquidity f <= 0)%Q ->
  Part001.filteredTokens tokens f = Part002.filteredTokens tokens f.
Proof.
  intros Hh Hl.
  assert (Hoff : forall m, (m <= 0)%Q -> JS.Qltb 0 m = false).
  { intros m Hm. apply not_true_iff_false. rewrite Qltb_lt. lra. }
  assert (Hsame : forall t, Part001.tokenFilter f t = Part002.tokenFilter f t).
  { intros t. unfold Part002.tokenFilter, Part001.tokenFilter, Part000.tokenFilter.
    now rewrite (Hoff _ Hh), (Hoff _ Hl). }
  unfold Part001.filteredTokens, Part002.filteredTokens. cbv zeta.
  rewrite (filter_ext _ _ Hsame). reflexivity.
Qed.

Lemma thresholds_off_same_as_part_002_witness :
  Part001.filteredTokens (honeypotAlpha :: ages3) hideHoneypotsSearchAlp
    = Part002.filteredTokens (honeypotAlpha :: ages3) hideHoneypotsSearchAlp.
Proof.
  apply (thresholds_off_same_as_part_002 (honeypotAlpha :: ages3) hideHoneypotsSearchAlp);
    simpl; lra.
Defined.

(** X10: the revisions [part_000] and [part_002] differ in the age order
    only: "age" in one is "age_asc" in the other, and under the keys
    "holders", "liquidity" and "safetyScore", with or without the suffix,
    they return the same output. *)
Theorem part_000_swaps_the_age_keys (tokens : list Token) (f : FilterState) :
  Part000.filteredTokens tokens (withSort "age" f)
    = Part002.filteredTokens tokens (withSort "age_asc" f) /\
  Part000.filteredTokens tokens (withSort "age_asc" f)
    = Part002.filteredTokens tokens (withSort "age" f) /\
  Forall (fun key =>
            Part000.filteredTokens tokens (withSort key f)
              = Part002.filteredTokens tokens (withSort key f))
         ["holders"; "holders_asc"; "liquidity"; "liquidity_asc";
          "safetyScore"; "safetyScore_asc"].
Proof.
  split; [|split].
  - unfold Part000.filteredTokens, Part002.filteredTokens. cbv zeta.
    f_equal. apply sort_same_sign. intros a b.
    apply eq_true_iff_eq. rewrite !Qle_bool_iff.
    unfold Part000.compareTokens, Part002.compareTokens, Part001.compareTokens,
      sortFieldOf, sortDirectionOf. simpl. lra.
  - unfold Part000.filteredTokens, Part002.filteredTokens. cbv zeta.
    f_equal. apply sort_same_sign. intros a b.
    apply eq_true_iff_eq. rewrite !Qle_bool_iff.
    unfold Part000.compareTokens, Part002.compareTokens, Part001.compareTokens,
      sortFieldOf, sortDirectionOf. simpl. lra.
  - repeat constructor.
Qed.

(** ** The size estimator and the expansion store together *)

Lemma flag_range (b : bool) : 0 <= Part001.flag b <= 1.
Proof. destruct b; simpl; lia. Qed.

Lemma estimateSize_cases
    (filtered : list Token) (expanded : gset string) (index : nat) (token : Token) :
  nth_error filtered index = Some token ->
  (tokenAddress token ∉ expanded ->
   Part001.estimateSize filtered expanded index = 84) /\
  (tokenAddress token ∈ expanded ->
   2500 <= Part001.estimateSize filtered expanded index <= 2996).
Proof.
  intros Hnth. unfold Part001.estimateSize. rewrite Hnth. split; intros Hin.
  - now rewrite bool_decide_eq_false_2.
  - rewrite bool_decide_eq_true_2 by exact Hin. cbn [negb]. cbv zeta.
    pose proof (flag_range (gpIsProxy token)).
    pose proof (flag_range (gpIsMintable token)).
    pose proof (flag_range (gpHasProxyCalls token)).
    pose proof (flag_range (gpCannotBuy token)).
    pose proof (flag_range (gpCannotSellAll token)).
    pose proof (flag_range (gpTradingCooldown token)).
    pose proof (flag_range (gpTransferPausable token)).
    pose proof (flag_range (gpSlippageModifiable token)).
    pose proof (flag_range (gpHiddenOwner token)).
    match goal with |- context [0 <? ?w] => set (warningCount := w) in * end.
    assert (0 <= warningCount <= 9) by (unfold warningCount; lia).
    clearbody warningCount.
    destruct (0 <? warningCount);
      destruct (JS.truthyOpt (gpTrustList token)),
               (JS.truthyOpt (gpOtherPotentialRisks token)),
               (JS.truthyOpt (gpHolders token)),
               (JS.truthyOpt (gpLpHolders token)),
               (JS.truthyOpt (gpDexInfo token));
      lia.
Qed.

(** X11: an estimate is never below 60 nor above 2996, and the estimate of
    an expanded record of the sequence is at least 2500: expanding a row
    never makes it shorter than a compact one. *)
Theorem estimateSize_bounds
    (filtered : list Token) (expanded : gset string) (index : nat) :
  60 <= Part001.estimateSize filtered expanded index <= 2996 /\
  forall token,
    nth_error filtered index = Some token ->
    tokenAddress token ∈ expanded ->
    2500 <= Part001.estimateSize filtered expanded index.
Proof.
  destruct (nth_error filtered index) as [token|] eqn:Hnth.
  - destruct (estimateSize_cases filtered expanded index token Hnth)
      as [Hcompact Hexpanded].
    split.
    + destruct (decide (tokenAddress token ∈ expanded)) as [Hin|Hout].
      * specialize (Hexpanded Hin). lia.
      * rewrite (Hcompact Hout). lia.
    + intros t [= <-] Hin. specialize (Hexpanded Hin). lia.
  - unfold Part001.estimateSize. rewrite Hnth. split; [lia | discriminate].
Qed.

Lemma estimateSize_bounds_witness :
  2500 <= Part001.estimateSize [honeypotAlpha] {["0xa1"]} 0.
Proof.
  apply (estimateSize_bounds [honeypotAlpha] {["0xa1"]} 0) with honeypotAlpha.
  - reflexivity.
  - simpl. set_solver.
Defined.

Lemma toggle_elsewhere (address other : string) (prev : gset string) :
  other <> address ->
  bool_decide (other ∈ toggleTokenExpansion address prev) = bool_decide (other ∈ prev).
Proof.
  intros Hne. apply bool_decide_ext. unfold toggleTokenExpansion. cbv zeta.
  destruct (decide (address ∈ prev)); set_solver.
Qed.

(** X12: toggling the expansion of one address leaves the estimate of
    every row with another address as it was. *)
Theorem toggle_keeps_other_estimates
    (filtered : list Token) (expanded : gset string) (index : nat) (address : string) :
  (forall token, nth_error filtered index = Some token -> tokenAddress token <> address) ->
  Part001.estimateSize filtered (toggleTokenExpansion address expanded) index
    = Part001.estimateSize filtered expanded index.
Proof.
  intros Hother. unfold Part001.estimateSize.
  destruct (nth_error filtered index) as [token|]; [|reflexivity].
  now rewrite (toggle_elsewhere _ _ _ (Hother token eq_refl)).
Qed.

Lemma toggle_keeps_other_estimates_witness :
  Part001.estimateSize ages3 (toggleTokenExpansion "0xb" {["0xa"]}) 0
    = Part001.estimateSize ages3 {["0xa"]} 0.
Proof.
  apply (toggle_keeps_other_estimates ages3 {["0xa"]} 0 "0xb").
  intros token [= <-]. discriminate.
Defined.

(** ** The expansion store *)

(** X13: toggles of two addresses commute. *)
Theorem toggles_commute (a b : string) (prev : gset string) :
  toggleTokenExpansion a (toggleTokenExpansion b prev)
    = toggleTokenExpansion b (toggleTokenExpansion a prev).
Proof.
  destruct (decide (a = b)) as [->|Hne]; [reflexivity|].
  apply set_eq. intros x.
  unfold toggleTokenExpansion. cbv zeta.
  destruct (decide (b ∈ prev)), (decide (a ∈ prev));
    repeat (match goal with
            | |- context [decide (?y ∈ ?s)] => destruct (decide (y ∈ s))
            end);
    set_solver.
Qed.

(** X14: a toggle changes the number of expanded addresses by exactly
    one: down when the address was expanded, up when it was not. *)
Theorem toggle_changes_size_by_one (address : string) (prev : gset string) :
  (address ∈ prev -> (size (toggleTokenExpansion address prev) + 1 = size prev)%nat) /\
  (address ∉ prev -> size (toggleTokenExpansion address prev) = (size prev + 1)%nat).
Proof.
  unfold toggleTokenExpansion. cbv zeta. split; intros H.
  - rewrite decide_True by exact H.
    assert (Hsplit : prev = {[address]} ∪ prev ∖ {[address]}).
    { apply set_eq. intros x. destruct (decide (x = address)); set_solver. }
    rewrite Hsplit at 2.
    rewrite (size_union (C := gset string) {[address]} (prev ∖ {[address]}))
      by set_solver.
    rewrite (size_singleton (C := gset string)). lia.
  - rewrite decide_False by exact H.
    rewrite (size_union (C := gset string) prev {[address]}) by set_solver.
    rewrite (size_singleton (C := gset string)). reflexivity.
Qed.

Lemma toggle_changes_size_by_one_witness :
  (size (toggleTokenExpansion "0xa" {["0xa"]}) + 1 = size ({["0xa"]} : gset string))%nat /\
  size (toggleTokenExpansion "0xb" {["0xa"]}) = (size ({["0xa"]} : gset string) + 1)%nat.
Proof.
  split.
  - apply (toggle_changes_size_by_one "0xa" {["0xa"]}). set_solver.
  - apply (toggle_changes_size_by_one "0xb" {["0xa"]}). set_solver.
Defined.

Lemma click_on_nothing (prev : gset string) : expandAllOnClick [] prev = ∅.
Proof. reflexivity. Qed.

(** X15: after a click on the expand-all / collapse-all button every
    expanded address is the address of a record of the filtered sequence;
    with an empty filtered sequence the click empties the set. *)
Theorem click_leaves_only_filtered (currentTokens : list Token) (prev : gset string) :
  expandAllOnClick currentTokens prev ⊆ list_to_set (map tokenAddress currentTokens) /\
  expandAllOnClick [] prev = ∅.
Proof.
  split; [|reflexivity].
  unfold expandAllOnClick. destruct (existsb _ currentTokens); set_solver.
Qed.

(** X16: on an unchanged filtered sequence the button alternates: the
    third click gives what the first click gave. *)
Theorem third_click_repeats_first (currentTokens : list Token) (prev : gset string) :
  expandAllOnClick currentTokens
    (expandAllOnClick currentTokens (expandAllOnClick currentTokens prev))
  = expandAllOnClick currentTokens prev.
Proof.
  destruct currentTokens as [|t l]; [reflexivity|].
  set (cur := t :: l).
  assert (Hids : exists x, In x cur /\
            tokenAddress x ∈ (list_to_set (map tokenAddress cur) : gset string)).
  { exists t. split; [now left|]. simpl. set_solver. }
  assert (Hempty : forall x, In x cur -> tokenAddress x ∉ (∅ : gset string))
    by (intros x _; set_solver).
  destruct (existsb (fun token => bool_decide (tokenAddress token ∈ prev)) cur) eqn:E.
  - apply hasExpanded_spec in E.
    rewrite (some_expanded cur prev E), (none_expanded cur ∅ Hempty).
    now apply some_expanded.
  - assert (Hnone : forall x, In x cur -> tokenAddress x ∉ prev).
    { intros x Hx Hin.
      assert (Hex : existsb (fun token => bool_decide (tokenAddress token ∈ prev)) cur = true)
        by (apply hasExpanded_spec; eauto).
      congruence. }
    rewrite (none_expanded cur prev Hnone), (some_expanded cur _ Hids).
    now apply none_expanded.
Qed.

(** X17: when the button reads "Compact View", a click collapses every
    row; when it reads "Detailed View" and every row of the sequence is
    among the rendered rows, a click expands exactly the filtered
    sequence. *)
Theorem caption_announces_the_click
    (filtered : list Token) (expanded : gset string) (virtualItems : list nat) :
  (viewToggleLabel filtered expanded virtualItems = "Compact View" ->
   expandAllOnClick filtered expanded = ∅) /\
  (viewToggleLabel filtered expanded virtualItems = "Detailed View" ->
   (forall index, (index < List.length filtered)%nat -> In index virtualItems) ->
   expandAllOnClick filtered expanded = list_to_set (map tokenAddress filtered)).
Proof.
  unfold viewToggleLabel.
  destruct (existsb _ virtualItems) eqn:E; split; try discriminate.
  - intros _. apply some_expanded.
    apply existsb_exists in E as (index & _ & Hrow).
    destruct (nth_error filtered index) as [token|] eqn:Hnth; [|discriminate].
    exists token. split; [eapply nth_error_In; exact Hnth|].
    now apply bool_decide_eq_true in Hrow.
  - intros _ Hall. apply none_expanded. intros t Ht Hin.
    apply In_nth_error in Ht as [index Hnth].
    assert (Hlt : (index < List.length filtered)%nat)
      by (apply nth_error_Some; congruence).
    assert (Hex : existsb
              (fun index =>
                 match nth_error filtered index with
                 | Some token => bool_decide (tokenAddress token ∈ expanded)
                 | None => false
                 end) virtualItems = true).
    { apply existsb_exists. exists index. split; [now apply Hall|].
      rewrite Hnth. now apply bool_decide_eq_true. }
    congruence.
Qed.

Lemma caption_announces_the_click_witness :
  expandAllOnClick ages3 {["0xb"]} = ∅ /\
  expandAllOnClick ages3 {["0xold"]} = list_to_set (map tokenAddress ages3).
Proof.
  split.
  - apply (caption_announces_the_click ages3 {["0xb"]} [0%nat; 1%nat]). reflexivity.
  - apply (caption_announces_the_click ages3 {["0xold"]} [0%nat; 1%nat; 2%nat]).
    + reflexivity.
    + simpl. intros index Hlt. lia.
Defined.

(** ** The compact row *)

Section SubstringFacts.

Lemma substring_length (n m : nat) (s : string) :
  String.length (String.substring n m s) = Nat.min m (String.length s - n).
Proof.
  revert n m. induction s as [|c s IH]; intros n m.
  - destruct n, m; reflexivity.
  - destruct n as [|n].
    + destruct m as [|m]; [reflexivity|]. simpl. rewrite IH.
      now rewrite Nat.sub_0_r.
    + simpl. apply IH.
Qed.

Lemma substring_nothing (s : string) : String.substring 0 0 s = "".
Proof. destruct s; reflexivity. Qed.

Lemma substring_split (n : nat) (s : string) :
  s = String.substring 0 n s ++ String.substring n (String.length s - n) s.
Proof.
  revert n. induction s as [|c s IH]; intros n.
  - destruct n; reflexivity.
  - destruct n as [|n].
    + specialize (IH 0%nat). rewrite substring_nothing, Nat.sub_0_r in IH.
      simpl. f_equal. exact IH.
    + simpl. f_equal. apply IH.
Qed.

End SubstringFacts.

(** X18: the address cell shows a prefix of the address, three dots and a
    suffix of the address; it has min(n, 8) + 3 + min(n, 6) characters for
    an address of n characters, so never more than 17. *)
Theorem abbreviated_address_shape (token : Token) :
  let address := tokenAddress token in
  let head := JSText.slice address 0 (Some 8) in
  let tail := JSText.slice address (-6) None in
  abbreviatedAddress token = head ++ "..." ++ tail /\
  (exists rest, address = head ++ rest) /\
  (exists front, address = front ++ tail) /\
  String.length (abbreviatedAddress token)
    = (Nat.min (String.length address) 8 + 3 + Nat.min (String.length address) 6)%nat /\
  (String.length (abbreviatedAddress token) <= 17)%nat.
Proof.
  intros address head tail.
  assert (Hhead : head = String.substring 0 (Nat.min 8 (String.length address)) address).
  { unfold head, JSText.slice, JSText.relativeIndex.
    change (0 <? 0) with false. change (8 <? 0) with false. cbv iota zeta.
    f_equal; lia. }
  assert (Htail : tail = String.substring (String.length address - 6)
                           (String.length address - (String.length address - 6)) address).
  { unfold tail, JSText.slice, JSText.relativeIndex.
    change (-6 <? 0) with true. cbv iota zeta.
    f_equal; lia. }
  assert (Hlen : String.length (abbreviatedAddress token)
    = (Nat.min (String.length address) 8 + 3 + Nat.min (String.length address) 6)%nat).
  { unfold abbreviatedAddress. fold address. fold head. fold tail.
    rewrite !length_app, Hhead, Htail, !substring_length.
    change (String.length "...") with 3%nat. lia. }
  split; [reflexivity|].
  split; [|split; [|split; [exact Hlen | lia]]].
  - eexists. rewrite Hhead. apply substring_split.
  - eexists. rewrite Htail. apply substring_split.
Qed.

(** X19: two records get the same badge colour exactly when they have the
    same safety score. *)
Theorem badge_colour_follows_score (a b : Token) :
  riskBadgeClass a = riskBadgeClass b <-> getRiskScore a = getRiskScore b.
Proof.
  unfold riskBadgeClass, getRiskScore.
  destruct (String.eqb (riskLevel a) "safe"), (String.eqb (riskLevel a) "warning"),
    (String.eqb (riskLevel a) "danger"), (String.eqb (riskLevel b) "safe"),
    (String.eqb (riskLevel b) "warning"), (String.eqb (riskLevel b) "danger");
    split; intros H; try reflexivity; discriminate H.
Qed.

(** ** The chart axis *)

Section AxisFacts.

Lemma min2_le (a b : Q) : (min2 a b <= a)%Q /\ (min2 a b <= b)%Q.
Proof.
  unfold min2. destruct (Qle_bool a b) eqn:E.
  - apply Qle_bool_iff in E. split; lra.
  - assert (~ (a <= b)%Q) by (rewrite <- Qle_bool_iff, E; discriminate).
    split; lra.
Qed.

Lemma max2_ge (a b : Q) : (a <= max2 a b)%Q /\ (b <= max2 a b)%Q.
Proof.
  unfold max2. destruct (Qle_bool a b) eqn:E.
  - apply Qle_bool_iff in E. split; lra.
  - assert (~ (a <= b)%Q) by (rewrite <- Qle_bool_iff, E; discriminate).
    split; lra.
Qed.

Lemma minOf_le (v : Q) (values : list Q) :
  (minOf v values <= v)%Q /\ forall x, In x values -> (minOf v values <= x)%Q.
Proof.
  unfold minOf. revert v. induction values as [|y l IH]; intros v; simpl.
  - split; [lra | tauto].
  - destruct (IH (min2 v y)) as [H1 H2]. destruct (min2_le v y) as [Hv Hy].
    split; [lra|]. intros x [<-|Hx]; [lra | auto].
Qed.

Lemma maxOf_ge (v : Q) (values : list Q) :
  (v <= maxOf v values)%Q /\ forall x, In x values -> (x <= maxOf v values)%Q.
Proof.
  unfold maxOf. revert v. induction values as [|y l IH]; intros v; simpl.
  - split; [lra | tauto].
  - destruct (IH (max2 v y)) as [H1 H2]. destruct (max2_ge v y) as [Hv Hy].
    split; [lra|]. intros x [<-|Hx]; [lra | auto].
Qed.

Lemma minOf_nonneg (v : Q) (values : list Q) :
  (0 <= v)%Q -> (forall x, In x values -> (0 <= x)%Q) -> (0 <= minOf v values)%Q.
Proof.
  unfold minOf. revert v. induction values as [|y l IH]; intros v Hv Hall; simpl.
  - exact Hv.
  - apply IH.
    + unfold min2. destruct (Qle_bool v y); [exact Hv | apply Hall; now left].
    + intros x Hx. apply Hall. now right.
Qed.

End AxisFacts.

(** X20: for a non-empty history the chart gets an axis whose lower end is
    never negative and whose upper end is at or above every plotted value;
    when no plotted value is negative, every plotted value lies between the
    two ends.  An empty history gets no axis. *)
Theorem axis_covers_the_values (type : ChartType) (history : list HistoryRecord) :
  history <> [] ->
  exists axis,
    getYAxisConfig type history = Some axis /\
    (0 <= axisMin axis)%Q /\
    (forall r, In r history -> (chartValue type r <= axisMax axis)%Q) /\
    ((forall r, In r history -> (0 <= chartValue type r)%Q) ->
     forall r, In r history -> (axisMin axis <= chartValue type r)%Q) /\
    getYAxisConfig type [] = None.
Proof.
  intros Hne. unfold getYAxisConfig.
  destruct history as [|h rest]; [congruence|]. cbn [map]. cbv zeta.
  set (v := chartValue type h). set (values := map (chartValue type) rest).
  destruct (minOf_le v values) as [Hmin1 Hmin2].
  destruct (maxOf_ge v values) as [Hmax1 Hmax2].
  assert (Hin : forall r, In r (h :: rest) ->
            chartValue type r = v \/ In (chartValue type r) values).
  { intros r [<-|Hr]; [now left | right; unfold values; now apply in_map]. }
  assert (Hrange : (0 <= maxOf v values - minOf v values)%Q) by lra.
  eexists. split; [reflexivity|]. cbn [axisMin axisMax].
  destruct (max2_ge 0 (minOf v values - (maxOf v values - minOf v values) * (1 # 10)))
    as [Hzero Hpad].
  split; [exact Hzero|]. split; [|split; [|reflexivity]].
  - intros r Hr. destruct (Hin r Hr) as [->|Hv]; [|specialize (Hmax2 _ Hv)]; nra.
  - intros Hpos r Hr.
    assert (Hlow : (0 <= minOf v values)%Q).
    { apply minOf_nonneg.
      - apply (Hpos h). now left.
      - intros x Hx. unfold values in Hx.
        apply in_map_iff in Hx as (r' & <- & Hr'). apply Hpos. now right. }
    assert (Hcut : (max2 0 (minOf v values - (maxOf v values - minOf v values) * (1 # 10))
                    <= minOf v values)%Q).
    { unfold max2. destruct (Qle_bool _ _); nra. }
    destruct (Hin r Hr) as [->|Hv]; [|specialize (Hmin2 _ Hv)]; lra.
Qed.

Lemma axis_covers_the_values_witness :
  exists axis,
    getYAxisConfig liquidity
      [mkHistoryRecord 1 100 4; mkHistoryRecord 2 300 6] = Some axis /\
    (0 <= axisMin axis)%Q.
Proof.
  destruct (axis_covers_the_values liquidity
              [mkHistoryRecord 1 100 4; mkHistoryRecord 2 300 6])
    as (axis & E & Hmin & _); [discriminate|].
  exists axis. split; [exact E | exact Hmin].
Defined.

(** ** The warnings of the card and the estimator *)

Lemma pushIf_length (c : bool) (text : string) (reasons : list string) :
  Z.of_nat (List.length (pushIf c text reasons))
    = Z.of_nat (List.length reasons) + Part001.flag c.
Proof.
  unfold pushIf. destruct c; simpl; [rewrite List.length_app; simpl|]; lia.
Qed.

(** X21: the card shows at least as many warning lines as the estimator
    counts for the same record, and at most ten more; it never shows more
    than nineteen. *)
Theorem estimator_counts_fewer_warnings (show : Q -> string) (t : CardToken) :
  let shown := Z.of_nat (List.length (getWarningReasons show t)) in
  let counted := countTrue (riskFlags (cardToken t)) in
  counted <= shown <= counted + 10 /\ shown <= 19.
Proof.
  intros shown counted. unfold shown, counted, getWarningReasons, riskFlags.
  cbv zeta. rewrite !pushIf_length, <- flags_sum. simpl List.length.
  repeat match goal with
         | |- context [Part001.flag ?b] =>
           let H := fresh in
           pose proof (flag_range b) as H;
           generalize dependent (Part001.flag b); intros
         end.
  lia.
Qed.

(** ** The pipeline, continued *)

Section OrderFacts.

Lemma compareTokens_trans_001 (f : FilterState) (a b c : Token) :
  inOrder (Part001.compareTokens f) a b -> inOrder (Part001.compareTokens f) b c ->
  inOrder (Part001.compareTokens f) a c.
Proof.
  unfold inOrder, Part001.compareTokens, sortDirectionOf. cbv zeta.
  destruct (JS.endsWith (sortBy f) "_asc");
    repeat match goal with |- context [if ?c then _ else _] => destruct c end;
    lra.
Qed.

Lemma strongly_sorted_001 (f : FilterState) (l : list Token) :
  StronglySorted (inOrder (Part001.compareTokens f)) (JS.sort (Part001.compareTokens f) l).
Proof.
  apply Sorted_StronglySorted; [exact (compareTokens_trans_001 f)|].
  apply Sorted_LocallySorted_iff, sort_sorted, flip_inOrder, compareTokens_flip_001.
Qed.

Lemma strongly_sorted_app {A : Type} (R : A -> A -> Prop) (l1 l2 : list A) :
  StronglySorted R (l1 ++ l2) ->
  Forall (fun a => Forall (fun b => R a b) l2) l1.
Proof.
  induction l1 as [|x l1 IH]; simpl; intros H; [constructor|].
  apply StronglySorted_inv in H as [Hs Hall].
  constructor; [|now apply IH].
  apply List.Forall_forall. intros b Hb.
  apply (proj1 (List.Forall_forall _ _) Hall). apply in_or_app. now right.
Qed.

Lemma sort_of_sorted {A : Type} (cmp : A -> A -> Q) (l : list A) :
  LocallySorted (inOrder cmp) l -> JS.sort cmp l = l.
Proof.
  induction 1 as [|x|x y l Hl IH Hxy]; try reflexivity.
  change (JS.sort cmp (x :: y :: l)) with (JS.insert cmp x (JS.sort cmp (y :: l))).
  rewrite IH. simpl.
  apply Qle_bool_iff in Hxy. now rewrite Hxy.
Qed.

Lemma in_firstn {A : Type} (n : nat) (l : list A) (x : A) :
  In x (firstn n l) -> In x l.
Proof.
  intros H. rewrite <- (firstn_skipn n l). apply in_or_app. now left.
Qed.






End OrderFacts.

(** X22: the cap drops the worst records only: the output and the
    dropped records together are the records that pass the filter, and
    every record of the output comes, in the comparator's order, at or
    before every dropped one. *)
Theorem dropped_records_rank_last (tokens : list Token) (f : FilterState) :
  exists dropped,
    Permutation (Part001.filteredTokens tokens f ++ dropped)
                (List.filter (Part001.tokenFilter f) tokens) /\
    Forall (fun kept =>
              Forall (fun d => inOrder (Part001.compareTokens f) kept d) dropped)
           (Part001.filteredTokens tokens f).
Proof.
  unfold Part001.filteredTokens. cbv zeta.
  set (sorted := JS.sort (Part001.compareTokens f)
                   (List.filter (Part001.tokenFilter f) tokens)).
  destruct (slice0_is_firstn sorted (maxRecords f)) as [n ->].
  exists (skipn n sorted). split.
  - rewrite firstn_skipn. apply sort_perm.
  - apply strongly_sorted_app. rewrite firstn_skipn. apply strongly_sorted_001.
Qed.

(** X23: for a cap that is not negative, running the pipeline on its own
    output changes nothing. *)
Theorem pipeline_idempotent (tokens : list Token) (f : FilterState) :
  0 <= maxRecords f ->
  Part001.filteredTokens (Part001.filteredTokens tokens f) f
    = Part001.filteredTokens tokens f.
Proof.
  intros Hcap.
  set (out := Part001.filteredTokens tokens f).
  assert (Hpass : List.filter (Part001.tokenFilter f) out = out).
  { apply filter_all. intros r Hr.
    unfold out, Part001.filteredTokens in Hr. cbv zeta in Hr.
    destruct (slice0_is_firstn
                (JS.sort (Part001.compareTokens f)
                   (List.filter (Part001.tokenFilter f) tokens)) (maxRecords f))
      as [n E].
    rewrite E in Hr.
    assert (Hin : In r (List.filter (Part001.tokenFilter f) tokens)).
    { eapply Permutation_in; [apply sort_perm|].
      eapply in_firstn. exact Hr. }
    now apply filter_In in Hin. }
  assert (Hlen : (List.length out <= Z.to_nat (maxRecords f))%nat).
  { unfold out, Part001.filteredTokens. cbv zeta.
    rewrite slice0_nonneg by exact Hcap. rewrite length_firstn. lia. }
  unfold Part001.filteredTokens at 1. cbv zeta. rewrite Hpass.
  rewrite (sort_of_sorted _ out (pipeline_in_order tokens f)).
  rewrite slice0_nonneg by exact Hcap.
  now apply firstn_all2.
Qed.

Lemma pipeline_idempotent_witness :
  Part001.filteredTokens (Part001.filteredTokens ages3 (withCap 2 defaultFilters))
    (withCap 2 defaultFilters)
  = Part001.filteredTokens ages3 (withCap 2 defaultFilters).
Proof.
  apply (pipeline_idempotent ages3 (withCap 2 defaultFilters)). simpl. lia.
Defined.


(** X25: after a click on the expand-all / collapse-all button the rows of
    the filtered sequence are all compact (84) or all expanded (2500 or
    more). *)
Theorem click_makes_rows_uniform (currentTokens : list Token) (prev : gset string) :
  let expanded := expandAllOnClick currentTokens prev in
  Forall (fun index => Part001.estimateSize currentTokens expanded index = 84)
         (seq 0 (List.length currentTokens)) \/
  Forall (fun index => 2500 <= Part001.estimateSize currentTokens expanded index)
         (seq 0 (List.length currentTokens)).
Proof.
  intros expanded. unfold expanded, expandAllOnClick.
  destruct (existsb _ currentTokens); [left | right];
    apply List.Forall_forall; intros index Hindex;
    apply in_seq in Hindex;
    destruct (nth_error currentTokens index) as [token|] eqn:Hnth;
    try (apply nth_error_None in Hnth; lia).
  - apply (estimateSize_cases currentTokens ∅ index token Hnth). set_solver.
  - apply (estimateSize_cases currentTokens _ index token Hnth).
    apply elem_of_addresses. exists token. split; [|reflexivity].
    eapply nth_error_In. exact Hnth.
Qed.
